(** * vec2tif: point tables to multi-band rasters

    A shallow embedding of [src/vec2tif/csv2tif.py]: the column resolver
    [get_latlon_names], the class [Csv2Tif] with its methods [convert_csv],
    [execute_one] and [execute_all], and the parts of Python, pandas,
    geopandas, haversine and rasterio that these call.  What the geodesy
    and the geometry engine compute is left open ([Externals]).

    Python floats are IEEE binary64 numbers, which is what Rocq's primitive
    [float] is; exceptions are values of [exn] carried by [result]; the
    methods of the class are state transformers over the instance and the
    file system. *)

From Stdlib Require Import ZArith QArith Floats String Ascii List Lia Bool.
From stdpp Require Import base option list gmap strings pretty.

Set Warnings "-inexact-float".
Open Scope string_scope.

(** ** Exceptions and results *)

(** A message is either a literal or [template.format(columns)], the one
    shape of formatted message this module builds.  The rendering of a
    pandas [Index] is pandas' business, so the argument is kept as it is. *)
Inductive message :=
| Literal (s : string)
| Formatted (template : string) (columns : list string).

Inductive exn :=
| KeyError (m : message)
| OSError (m : message)
| ValueError (m : message)
| OverflowError (m : message)
| FileNotFoundError (path : string)
| ParserError (path : string)
| RasterioIOError.

(** [isinstance(e, OSError)]: [FileNotFoundError] is a subclass of
    [OSError] in Python, and so is rasterio's [RasterioIOError]. *)
Definition is_oserror (e : exn) : bool :=
  match e with
  | OSError _ | FileNotFoundError _ | RasterioIOError => true
  | _ => false
  end.

Inductive result (A : Type) :=
| Ok (a : A)
| Raise (e : exn).
Arguments Ok {A} a.
Arguments Raise {A} e.

Definition rbind {A B} (r : result A) (k : A → result B) : result B :=
  match r with
  | Ok a => k a
  | Raise e => Raise e
  end.

Notation "'let?' x ':=' r 'in' k" := (rbind r (λ x, k))
  (at level 10, x name, r at level 100, k at level 200).

(** ** Python strings *)

Module Str.

(** [str.lower] on the bytes of a string: the letters A to Z are mapped to
    a to z.  On text outside ASCII Python's [lower] does more, but no text
    with a character outside ASCII lowers to one of the aliases or to
    ".csv", so the comparisons made with the result are the same. *)
Definition lower_ascii (c : ascii) : ascii :=
  let n := N_of_ascii c in
  if ((65 <=? n) && (n <=? 90))%N then ascii_of_N (n + 32) else c.

Fixpoint lower (s : string) : string :=
  match s with
  | EmptyString => EmptyString
  | String c s' => String (lower_ascii c) (lower s')
  end.

(** [s.rfind(c)]: the index of the last occurrence, or -1. *)
Fixpoint rfind (c : ascii) (s : string) : Z :=
  match s with
  | EmptyString => -1
  | String a s' =>
      let r := rfind c s' in
      if (0 <=? r)%Z then (r + 1)%Z
      else if Ascii.eqb a c then 0%Z else (-1)%Z
  end.

(** The slices [s[:i]] and [s[i:]] for an index [0 <= i]. *)
Definition take (i : Z) (s : string) : string :=
  substring 0 (Z.to_nat i) s.
Definition drop (i : Z) (s : string) : string :=
  substring (Z.to_nat i) (String.length s - Z.to_nat i) s.

Fixpoint all_char (c : ascii) (s : string) : bool :=
  match s with
  | EmptyString => true
  | String a s' => Ascii.eqb a c && all_char c s'
  end.

(** [s.rstrip(c)] for a one-character [c]. *)
Fixpoint rstrip (c : ascii) (s : string) : string :=
  match s with
  | EmptyString => EmptyString
  | String a s' => if all_char c (String a s') then EmptyString
                   else String a (rstrip c s')
  end.

Definition startswith (c : ascii) (s : string) : bool :=
  match s with
  | String a _ => Ascii.eqb a c
  | EmptyString => false
  end.

Fixpoint endswith (c : ascii) (s : string) : bool :=
  match s with
  | EmptyString => false
  | String a EmptyString => Ascii.eqb a c
  | String _ s' => endswith c s'
  end.

End Str.

(** [enumerate(l)] *)
Fixpoint enumerate_from {A} (n : nat) (l : list A) : list (nat * A) :=
  match l with
  | [] => []
  | x :: l' => (n, x) :: enumerate_from (S n) l'
  end.
Definition enumerate {A} (l : list A) : list (nat * A) := enumerate_from 0 l.

(** ** Column resolver: [get_latlon_names] *)

(** The dictionary [result] has the two keys ["lat"] and ["lng"] from its
    creation on; a value is the empty tuple until a column is found. *)
Record latlng_slots := {
  slot_lat : option (nat * string);
  slot_lng : option (nat * string)
}.

Record latlng_names := {
  lat : nat * string;
  lng : nat * string
}.

Definition is_lat (x : string) : bool :=
  let xl := Str.lower x in (xl =? "latitude") || (xl =? "lat").
Definition is_lng (x : string) : bool :=
  let xl := Str.lower x in (xl =? "longitude") || (xl =? "lng").

(** One turn of the loop over [enumerate(columns)]. *)
Definition scan_step (result : latlng_slots) (ix : nat * string) : latlng_slots :=
  let '(i, x) := ix in
  if is_lat x then {| slot_lat := Some (i, x); slot_lng := slot_lng result |}
  else if is_lng x then {| slot_lat := slot_lat result; slot_lng := Some (i, x) |}
  else result.

Definition scan (columns : list string) : latlng_slots :=
  fold_left scan_step (enumerate columns)
            {| slot_lat := None; slot_lng := None |}.

Definition get_latlon_names (columns : list string) : result latlng_names :=
  let result := scan columns in
  match slot_lat result, slot_lng result with
  | None, _ => Raise (KeyError (Formatted "Latitude is not found! {}" columns))
  | Some _, None => Raise (KeyError (Formatted "Longitude is not found! {}" columns))
  | Some a, Some b => Ok {| lat := a; lng := b |}
  end.

(** ** Numbers *)

(** [int(v)] for a float [v]: the integer part, rounded toward zero; NaN and
    the infinities raise.  A finite float is [(-1)^s * m * 2^e]: shifting
    the magnitude [m] by [e] (to the right when [e] is negative) drops the
    fraction, and the sign is put back afterwards. *)
Definition py_int (v : float) : result Z :=
  match Prim2SF v with
  | S754_nan => Raise (ValueError (Literal "cannot convert float NaN to integer"))
  | S754_infinity _ =>
      Raise (OverflowError (Literal "cannot convert float infinity to integer"))
  | S754_zero _ => Ok 0%Z
  | S754_finite s m e => Ok (cond_Zopp s (Z.shiftl (Zpos m) e))
  end.

(** [np.nanmin] and [np.nanmax] of two values: a NaN is passed over. *)
Definition nanmin (a b : float) : float :=
  if is_nan a then b else if (b <? a)%float then b else a.
Definition nanmax (a b : float) : float :=
  if is_nan a then b else if (a <? b)%float then b else a.

(** ** Tables: the pandas [DataFrame] as this module uses it *)

(** Columns in their order, each a label and its values in row order.
    [pd.read_csv] makes the labels pairwise distinct and the columns of one
    length; [wf_frame] says so where a statement needs it. *)
Abbreviation DataFrame := (list (string * list float)).

Definition columns (df : DataFrame) : list string := map fst df.

Definition wf_frame (df : DataFrame) : Prop := NoDup (columns df).

(** [df[name]] *)
Fixpoint getitem (df : DataFrame) (name : string) : result (list float) :=
  match df with
  | [] => Raise (KeyError (Literal name))
  | (c, vs) :: df' => if c =? name then Ok vs else getitem df' name
  end.

(** [df.drop(names, axis=1)]: every label must be there. *)
Definition drop (names : list string) (df : DataFrame) : result DataFrame :=
  match List.find (fun n => negb (existsb (String.eqb n) (columns df))) names with
  | Some n => Raise (KeyError (Literal n))
  | None =>
      Ok (List.filter (fun c => negb (existsb (String.eqb (fst c)) names)) df)
  end.

(** ** Geometry *)

Module Point.
(** [shapely.geometry.Point]: [x] is the longitude, [y] the latitude. *)
Record t := make { x : float; y : float }.
End Point.

Definition Point (xy : float * float) : Point.t := Point.make (fst xy) (snd xy).

(** [geopandas.GeoDataFrame(df, crs=..., geometry=geom)]: a frame of its own
    with the geometry beside the attribute columns. *)
Record GeoDataFrame := {
  frame : DataFrame;
  gdf_crs : Z;
  geometry : list Point.t
}.

(** [gdf.total_bounds]: (minx, miny, maxx, maxy) over all points, NaN four
    times for no point. *)
Definition total_bounds (gdf : GeoDataFrame) : float * float * float * float :=
  match geometry gdf with
  | [] => (nan, nan, nan, nan)
  | p :: g =>
      (fold_left nanmin (map Point.x g) (Point.x p),
       fold_left nanmin (map Point.y g) (Point.y p),
       fold_left nanmax (map Point.x g) (Point.x p),
       fold_left nanmax (map Point.y g) (Point.y p))
  end.

(** [gdf.geometry[0]]: the row labelled 0, the first one of a table that was
    read from a file. *)
Definition geometry0 (gdf : GeoDataFrame) : result Point.t :=
  match geometry gdf with
  | [] => Raise (KeyError (Literal "0"))
  | p :: _ => Ok p
  end.

(** ** Libraries outside the repository *)

Inductive Direction :=
| NORTH | NORTHEAST | EAST | SOUTHEAST | SOUTH | SOUTHWEST | WEST | NORTHWEST.

Inductive Unit := KILOMETERS | METERS | MILES | NAUTICAL_MILES | FEET | INCHES.

(** [rasterio.transform.from_bounds(west, south, east, north, width, height)],
    kept as the call that makes it. *)
Inductive Affine :=
| from_bounds (west south east north : float) (width height : Z).

(** ** Rasters *)

(** A band array: rows of cells, as numpy holds it. *)
Abbreviation Band := (list (list float)).

Record Profile := {
  driver : string;
  width : Z;
  height : Z;
  count : nat;
  dtype : string;
  crs : string;
  transform : Affine;
  nodata : float
}.

(** A raster file: its profile, and for each band index the array that
    [write] was given for it.  That array is not the band: GDAL copies it
    into the band of the file, which has [height] rows and [width] columns,
    and resamples it on the way when its shape is another one.  What the
    band then holds is left out of the model. *)
Record Dataset := {
  profile : Profile;
  written : gmap nat Band
}.

Inductive File :=
| CsvFile (df : DataFrame)
| TifFile (d : Dataset)
| OtherFile.

(** What the geodesy, the geometry engine and the raster library compute
    is not this repository's: [inverse_haversine] of the haversine package
    (a point as (lat, lng), a distance, a bearing, a unit; the result as
    (lat, lng)); the row and the column of the grid at which a point lies
    under a transform, as GDAL finds them ([None] for a point north or west
    of the grid's origin); and whether [rasterio.open] in mode "w" removes
    the file that it finds at the path before it creates the new one, as it
    does with what GDAL takes for a dataset. *)
Class Externals := {
  inverse_haversine : float * float → float → Direction → Unit → float * float;
  cell_of : Affine → Point.t → option (nat * nat);
  unlinks : File → bool
}.

(** [np.full(shape, fill)] for a shape (rows, columns). *)
Definition full (shape : Z * Z) (fill : float) : Band :=
  replicate (Z.to_nat (fst shape)) (replicate (Z.to_nat (snd shape)) fill).

(** Modelled from the spec: [rasterio.features.rasterize] is not part of
    this repository.  One shape is burnt by writing its value into the cell
    of the array at the row and column of the point; a point whose row or
    column is not in the array leaves the array as it is.  No [dtype] is
    given to the call and the values are written as they are. *)
Definition burn `{Externals} (transform : Affine) (out : Band)
    (shape : Point.t * float) : Band :=
  let '(geom, value) := shape in
  match cell_of transform geom with
  | Some (r, c) => alter (λ row, <[c := value]> row) r out
  | None => out
  end.

(** Modelled from the spec: [rasterize(shapes, out_shape=..., transform=...,
    fill=..., all_touched=...)].  The array has the shape [out_shape], read
    as (rows, columns); it starts out as [fill] everywhere and the shapes
    are burnt in the order of the iterable, a later shape over an earlier
    one.  For point geometries [all_touched] makes no difference: a point
    touches the one cell that holds it. *)
Definition rasterize `{Externals} (shapes : list (Point.t * float))
    (out_shape : Z * Z) (transform : Affine) (fill : float)
    (all_touched : bool) : result Band :=
  if ((fst out_shape <? 0) || (snd out_shape <? 0))%Z
  then Raise (ValueError (Literal "negative dimensions are not allowed"))
  else Ok (fold_left (burn transform) shapes (full out_shape fill)).

(** ** The file system and the instance: state of a run *)

Record Csv2Tif := {
  input_file_list : list string;
  n_inputs : nat;
  crs_code : Z;
  resolution : float;
  output_file_list : list string
}.

Record State := {
  self : Csv2Tif;
  fs : gmap string File
}.

(** A method is a state transformer that returns or raises; what was done
    to the state before a raise stays done. *)
Definition M (A : Type) : Type := State → result A * State.

Definition ret {A} (a : A) : M A := λ st, (Ok a, st).
Definition raise {A} (e : exn) : M A := λ st, (Raise e, st).
Definition bind {A B} (m : M A) (k : A → M B) : M B :=
  λ st, match m st with
        | (Ok a, st') => k a st'
        | (Raise e, st') => (Raise e, st')
        end.
Definition lift {A} (r : result A) : M A := λ st, (r, st).
Definition get_self : M Csv2Tif := λ st, (Ok (self st), st).
Definition get_fs : M (gmap string File) := λ st, (Ok (fs st), st).
Definition put_fs (f : gmap string File) : M unit :=
  λ st, (Ok tt, {| self := self st; fs := f |}).

Notation "'let*' x ':=' m 'in' k" := (bind m (λ x, k))
  (at level 10, x name, m at level 100, k at level 200).
Notation "'run' m 'then' k" := (bind m (λ _, k))
  (at level 10, m at level 100, k at level 200).

(** [os.path] of a POSIX system. *)
Module os_path.

Definition basename (p : string) : string :=
  let i := (Str.rfind "/" p + 1)%Z in
  Str.drop i p.

Definition dirname (p : string) : string :=
  let i := (Str.rfind "/" p + 1)%Z in
  let head := Str.take i p in
  if negb (head =? "") && negb (Str.all_char "/" head)
  then Str.rstrip "/" head else head.

(** The extension starts at the last dot of the last component, unless
    only dots come before it there. *)
Definition splitext (p : string) : string * string :=
  let sepIndex := Str.rfind "/" p in
  let dotIndex := Str.rfind "." p in
  if (sepIndex <? dotIndex)%Z
     && negb (Str.all_char "." (Str.take (dotIndex - (sepIndex + 1))
                                         (Str.drop (sepIndex + 1) p)))
  then (Str.take dotIndex p, Str.drop dotIndex p)
  else (p, "").

Definition join (a b : string) : string :=
  if Str.startswith "/" b then b
  else if (a =? "") || Str.endswith "/" a then a +:+ b
  else a +:+ "/" +:+ b.

Definition lexists (path : string) : M bool :=
  let* f := get_fs in ret (bool_decide (is_Some (f !! path))).

End os_path.

(** [pd.read_csv(path)]: the table that the file holds. *)
Definition read_csv (path : string) : M DataFrame :=
  let* f := get_fs in
  match f !! path with
  | Some (CsvFile df) => ret df
  | Some _ => raise (ParserError path)
  | None => raise (FileNotFoundError path)
  end.

(** The profiles that GDAL creates no dataset for: a grid needs a cell and
    a raster a band (section 3 of the spec: width and height are at least
    1). *)
Definition refused (p : Profile) : bool :=
  ((width p <=? 0) || (height p <=? 0))%Z || (count p =? 0)%nat.

(** The files after an [open] that was refused: none is made, and the one
    that was at the path is still there or has been removed. *)
Definition cleared `{Externals} (path : string) (f : gmap string File)
    : gmap string File :=
  match f !! path with
  | Some old => if unlinks old then delete path f else f
  | None => f
  end.

(** Modelled from the spec: [rasterio.open(path, "w", **profile)], the
    writer of section 4.4 with the error path that the section gives it;
    rasterio is not part of this repository.  For a profile that GDAL
    refuses, rasterio raises its [RasterioIOError] and no file is made.
    Otherwise the file is created, or replaced, with no band written
    yet. *)
Definition rasterio_open `{Externals} (path : string) (p : Profile) : M unit :=
  let* f := get_fs in
  if refused p
  then run put_fs (cleared path f) then raise RasterioIOError
  else put_fs (<[path := TifFile {| profile := p; written := ∅ |}]> f).

(** [dst.write(arr, indexes)] on the dataset opened at [path]: the array is
    handed over for the band of that index, whatever its shape (see
    [Dataset]). *)
Definition dst_write (path : string) (arr : Band) (indexes : nat) : M unit :=
  let* f := get_fs in
  match f !! path with
  | Some (TifFile d) =>
      put_fs (<[path := TifFile {| profile := profile d;
                                   written := <[indexes := arr]> (written d) |}]> f)
  | _ => ret tt
  end.

(** ** The class [Csv2Tif] *)

(** [Csv2Tif.__init__] *)
Definition init (input_file_list : list string) (crs_code : Z)
    (resolution : float) : Csv2Tif :=
  {| input_file_list := input_file_list;
     n_inputs := length input_file_list;
     crs_code := crs_code;
     resolution := resolution;
     output_file_list := [] |}.

(** The first part of [convert_csv], from the header to the
    [GeoDataFrame]: the columns of the two axes are found, the points are
    made of them in row order, x from the longitude and y from the latitude,
    and the two columns leave the frame.  Python's [zip] is stdpp's [zip]:
    pairs in order, as many as the shorter sequence has. *)
Definition to_gdf (crs_code : Z) (df : DataFrame) : result GeoDataFrame :=
  let? latlng_names := get_latlon_names (columns df) in
  let? xs := getitem df (snd (lng latlng_names)) in
  let? ys := getitem df (snd (lat latlng_names)) in
  let geom := map Point (zip xs ys) in
  let? df := drop [snd (lat latlng_names); snd (lng latlng_names)] df in
  Ok {| frame := df; gdf_crs := crs_code; geometry := geom |}.

Section Convert.
Context `{Externals}.

(** The grid of [convert_csv]: the bounding box, the point of row 0 as
    (lat, lng), the points one resolution east and north of it, the
    degrees per cell, and the two cell counts.  The bounds are numpy
    floats, so a division by zero gives an infinity or a NaN, at which
    [int] raises. *)
Definition grid_sizer (resolution : float) (gdf : GeoDataFrame)
    : result ((float * float * float * float) * (Z * Z)) :=
  let bbox := total_bounds gdf in
  let '(bbox0, bbox1, bbox2, bbox3) := bbox in
  let? g0 := geometry0 gdf in
  let point0 := (Point.y g0, Point.x g0) in
  let point_east := inverse_haversine point0 resolution EAST METERS in
  let point_north := inverse_haversine point0 resolution NORTH METERS in
  let unit := (snd point_east - snd point0, fst point_north - fst point0)%float in
  let? nx := py_int ((bbox2 - bbox0) / fst unit)%float in
  let? ny := py_int ((bbox3 - bbox1) / snd unit)%float in
  Ok (bbox, (nx, ny)).

(** The loop over [enumerate(df.columns)] inside the [with] block. *)
Fixpoint write_bands (output_file_name : string) (gdf : GeoDataFrame)
    (nxy : Z * Z) (out_transform : Affine) (nodata : float)
    (cols : list (nat * string)) : M unit :=
  match cols with
  | [] => ret tt
  | (i, z_name) :: cols' =>
      let* zs := lift (getitem (frame gdf) z_name) in
      let* z_array := lift (rasterize (zip (geometry gdf) zs) nxy
                                      out_transform nodata true) in
      run dst_write output_file_name z_array (i + 1) then
      write_bands output_file_name gdf nxy out_transform nodata cols'
  end.

(** [Csv2Tif.convert_csv]; [out_shape] is given the pair [nxy] as it is. *)
Definition convert_csv (input_file_name output_file_name : string) : M unit :=
  let* df := read_csv input_file_name in
  let* this := get_self in
  let* gdf := lift (to_gdf (crs_code this) df) in
  let df := frame gdf in
  let* grid := lift (grid_sizer (resolution this) gdf) in
  let '((bbox0, bbox1, bbox2, bbox3), nxy) := grid in
  let out_transform := from_bounds bbox0 bbox1 bbox2 bbox3 (fst nxy) (snd nxy) in
  let nodata := (-9999.0)%float in
  let profile :=
    {| driver := "GTiff";
       width := fst nxy;
       height := snd nxy;
       count := length (columns df);
       dtype := "float32";
       crs := "EPSG:" +:+ pretty (crs_code this);
       transform := out_transform;
       nodata := nodata |} in
  run rasterio_open output_file_name profile then
  write_bands output_file_name gdf nxy out_transform nodata
              (enumerate (columns df)).

(** [Csv2Tif.execute_one] *)
Definition execute_one (input_file_name : string) : M unit :=
  let '(body, suffix) := os_path.splitext (os_path.basename input_file_name) in
  let suffix := Str.lower suffix in
  let* found := os_path.lexists input_file_name in
  if negb found then raise (OSError (Literal "File not found!"))
  else if negb (suffix =? ".csv")
  then raise (OSError (Literal "File extension is invalid! Only 'csv' is available."))
  else
    let output_file_name :=
      os_path.join (os_path.dirname input_file_name) (body +:+ ".tif") in
    convert_csv input_file_name output_file_name.

(** The [for] loop of [execute_all] over a list of names. *)
Fixpoint execute_each (names : list string) : M unit :=
  match names with
  | [] => ret tt
  | input_file_name :: names' =>
      run execute_one input_file_name then execute_each names'
  end.

(** [Csv2Tif.execute_all] *)
Definition execute_all : M unit :=
  let* this := get_self in
  execute_each (input_file_list this).

End Convert.

(** ** Specification vocabulary *)

(** [r] is the last column of [cols] that satisfies [P], with its index;
    [None] when no column does. *)
Definition last_match (P : string → bool) (cols : list string)
    (r : option (nat * string)) : Prop :=
  match r with
  | Some (i, x) =>
      cols !! i = Some x ∧ P x = true ∧
      ∀ k z, i < k → cols !! k = Some z → P z = false
  | None => ∀ k z, cols !! k = Some z → P z = false
  end.

(** The rational number that a finite float is, [(-1)^s * m * 2^e] as a
    fraction, and the integer part of a fraction, rounded toward zero. *)
Definition exact_value (v : float) : option Q :=
  match Prim2SF v with
  | S754_zero _ => Some (Qmake 0 1)
  | S754_finite s m e =>
      Some match e with
           | Zneg k => Qmake (cond_Zopp s (Zpos m)) (2 ^ k)
           | _ => Qmake (cond_Zopp s (Zpos m) * 2 ^ e) 1
           end
  | _ => None
  end.

Definition truncate (q : Q) : Z := Z.quot (Qnum q) (Zpos (Qden q)).

(** The cell at row [r] and column [c] of a band array. *)
Definition cell (b : Band) (r c : nat) : option float :=
  row ← b !! r; row !! c.

(** The number of cells of a band array, and of those that differ from a
    given sample. *)
Definition cells (b : Band) : list float := concat b.
Definition other_than (v : float) (b : Band) : list float :=
  List.filter (λ s, negb (s =? v)%float) (cells b).

(** A computation that leaves the instance as it found it, whatever it does
    to the file system and however it ends. *)
Definition keeps_self {A} (m : M A) : Prop :=
  ∀ st, self (snd (m st)) = self st.

(** A result, and a computation, that is not an exception made by
    [OSError(...)] itself, as the two guards of [execute_one] make theirs.
    The exceptions of its subclasses are not meant here: [is_oserror] tells
    what [except OSError] catches. *)
Definition not_plain_oserror {A} (r : result A) : Prop :=
  ∀ msg, r ≠ Raise (OSError msg).
Definition never_plain_oserror {A} (m : M A) : Prop :=
  ∀ st, not_plain_oserror (fst (m st)).

(** The profile that [convert_csv] opens the raster with. *)
Definition raster_profile (crs_code : Z) (count : nat)
    (b0 b1 b2 b3 : float) (w h : Z) : Profile :=
  {| driver := "GTiff";
     width := w;
     height := h;
     count := count;
     dtype := "float32";
     crs := "EPSG:" +:+ pretty crs_code;
     transform := from_bounds b0 b1 b2 b3 w h;
     nodata := (-9999.0)%float |}.

(** From [st] to [st'] no file was made or changed: the files are as they
    were, but for the one at [path], which may be gone. *)
Definition makes_no_file (path : string) (st st' : State) : Prop :=
  st' = st ∨ st' = {| self := self st; fs := delete path (fs st) |}.

(** The name that [execute_one] gives the raster of an input. *)
Definition out_path (input_file_name : string) : string :=
  os_path.join (os_path.dirname input_file_name)
    (fst (os_path.splitext (os_path.basename input_file_name)) +:+ ".tif").

(** A computation that leaves alone every file whose path satisfies
    [keep], however it ends. *)
Definition keeps_files {A} (keep : string → Prop) (m : M A) : Prop :=
  ∀ st q, keep q → fs (snd (m st)) !! q = fs st !! q.

(** A computation that leaves at [path], where a raster was, a raster with
    the profile it had. *)
Definition keeps_raster {A} (path : string) (m : M A) : Prop :=
  ∀ st d, fs st !! path = Some (TifFile d) →
    ∃ d', self (snd (m st)) = self st ∧
          fs (snd (m st)) = <[path := TifFile d']> (fs st) ∧
          profile d' = profile d.

(** ** A small world for examples *)

Module Sample.

(** Stand-ins for the libraries: a degree is taken as 111195 metres in
    both directions, the cell of a point is found by dividing its offsets
    from the west and north edges by the cell sizes, and opening a raster
    for writing removes the raster that was at the path. *)
Definition flat_inverse_haversine (point : float * float) (distance : float)
    (direction : Direction) (unit : Unit) : float * float :=
  let '(lat, lng) := point in
  let deg := (distance / 111195.0)%float in
  match direction with
  | NORTH => (lat + deg, lng)
  | SOUTH => (lat - deg, lng)
  | EAST => (lat, lng + deg)
  | WEST => (lat, lng - deg)
  | _ => (lat, lng)
  end%float.

Definition Z2float (z : Z) : float :=
  if (z <? 0)%Z then (- of_uint63 (Uint63.of_Z (- z)))%float
  else of_uint63 (Uint63.of_Z z).

Definition grid_cell_of (t : Affine) (p : Point.t) : option (nat * nat) :=
  let '(from_bounds west south east north width height) := t in
  let col := py_int ((Point.x p - west) / ((east - west) / Z2float width))%float in
  let row := py_int ((north - Point.y p) / ((north - south) / Z2float height))%float in
  match row, col with
  | Ok r, Ok c =>
      if ((0 <=? r) && (0 <=? c))%Z then Some (Z.to_nat r, Z.to_nat c) else None
  | _, _ => None
  end.

Definition unlinks_raster (old : File) : bool :=
  match old with
  | TifFile _ => true
  | _ => false
  end.

Definition externals : Externals :=
  {| inverse_haversine := flat_inverse_haversine;
     cell_of := grid_cell_of;
     unlinks := unlinks_raster |}.

(** One point, two attribute columns. *)
Definition one_point : DataFrame :=
  [("lat", [35.0]); ("lon_id", [7.0]); ("lng", [139.0]); ("val", [10.0])]%float.

(** Four points in row order; the second and the third are a metre apart. *)
Definition survey : DataFrame :=
  [("Latitude", [35.0; 35.015; 35.015; 35.04]);
   ("Longitude", [139.0; 139.025; 139.02501; 139.06]);
   ("val", [10.0; 20.0; 30.0; 40.0]);
   ("height", [1.5; 2.5; 3.5; 4.5])]%float.

(** Two points some fifty metres apart. *)
Definition two_near : DataFrame :=
  [("id", [1.0; 2.0]); ("LAT", [35.0; 35.0005]); ("LNG", [139.0; 139.0005])]%float.

(** Four points along a strip that is ten times as long from west to east
    as from south to north; the second and the third are some ten metres
    apart. *)
Definition strip : DataFrame :=
  [("lat", [35.0; 35.019; 35.0191; 35.02]);
   ("lng", [139.0; 139.15; 139.1501; 139.2]);
   ("val", [10.0; 20.0; 30.0; 40.0])]%float.

Definition disk : gmap string File :=
  {[ "data/one.csv" := CsvFile one_point;
     "data/survey.CSV" := CsvFile survey;
     "data/near.csv" := CsvFile two_near;
     "data/strip.csv" := CsvFile strip;
     "notes.txt" := OtherFile ]}.

(** A cloud of two points, half a degree and a quarter of a degree apart. *)
Definition cloud : GeoDataFrame :=
  {| frame := [];
     gdf_crs := 4326;
     geometry := [Point.make 139.0 35.0; Point.make 139.5 35.25] |}.

Definition tool : Csv2Tif :=
  init ["data/survey.CSV"; "data/strip.csv"] 4326 1000.0%float.

Definition start : State := {| self := tool; fs := disk |}.

End Sample.

(** * Properties *)

Open Scope list_scope.

(** ** The column resolver *)

Lemma enumerate_from_app {A} (l k : list A) n :
  enumerate_from n (l ++ k) = enumerate_from n l ++ enumerate_from (n + length l) k.
Proof.
  revert n; induction l as [|a l IH]; intros n; simpl.
  - by rewrite Nat.add_0_r.
  - rewrite IH. do 3 f_equal. lia.
Qed.

Lemma scan_snoc cols x :
  scan (cols ++ [x]) = scan_step (scan cols) (length cols, x).
Proof.
  unfold scan, enumerate. rewrite enumerate_from_app, fold_left_app. reflexivity.
Qed.

(** No name is an alias of both axes. *)
Lemma is_lat_not_lng x : is_lat x = true → is_lng x = false.
Proof.
  unfold is_lat, is_lng. intros Hx.
  apply orb_true_iff in Hx as [Hx|Hx]; apply String.eqb_eq in Hx;
    rewrite Hx; reflexivity.
Qed.

Lemma last_match_snoc_hit P cols x :
  P x = true → last_match P (cols ++ [x]) (Some (length cols, x)).
Proof.
  intros Hx. repeat split; [|done|].
  - by rewrite lookup_app_r, Nat.sub_diag.
  - intros k z Hk Hz. apply lookup_lt_Some in Hz.
    rewrite length_app in Hz. simpl in Hz. lia.
Qed.

Lemma last_match_snoc_miss P cols x r :
  P x = false → last_match P cols r → last_match P (cols ++ [x]) r.
Proof.
  intros Hx Hr.
  assert (Hnew : ∀ k z, (cols ++ [x]) !! k = Some z →
                        cols !! k = Some z ∨ z = x).
  { intros k z Hz. destruct (decide (k < length cols)) as [Hlt|Hge].
    - left. by rewrite lookup_app_l in Hz.
    - right. rewrite lookup_app_r in Hz by lia.
      apply list_elem_of_lookup_2, list_elem_of_singleton in Hz. done. }
  destruct r as [[i y]|]; simpl in *.
  - destruct Hr as (Hi & Hy & Hlast). repeat split; [|done|].
    + by apply lookup_app_l_Some.
    + intros k z Hk Hz. destruct (Hnew _ _ Hz) as [Hz'| ->]; eauto.
  - intros k z Hz. destruct (Hnew _ _ Hz) as [Hz'| ->]; eauto.
Qed.

(** After the loop each slot holds the last column that matched its
    aliases. *)
Lemma scan_last_match cols :
  last_match is_lat cols (slot_lat (scan cols)) ∧
  last_match is_lng cols (slot_lng (scan cols)).
Proof.
  induction cols as [|x cols [IHlat IHlng]] using rev_ind.
  - split; intros k z Hz; by rewrite lookup_nil in Hz.
  - rewrite scan_snoc. unfold scan_step.
    destruct (is_lat x) eqn:Hlat; simpl.
    + split; [by apply last_match_snoc_hit|].
      apply last_match_snoc_miss; [by apply is_lat_not_lng | done].
    + destruct (is_lng x) eqn:Hlng; simpl.
      * split; [by apply last_match_snoc_miss | by apply last_match_snoc_hit].
      * split; by apply last_match_snoc_miss.
Qed.

Lemma last_match_unique P cols r r' :
  last_match P cols r → last_match P cols r' → r = r'.
Proof.
  destruct r as [[i x]|], r' as [[j y]|]; simpl.
  - intros (Hi & Hx & Hlast) (Hj & Hy & Hlast').
    destruct (Nat.lt_trichotomy i j) as [Hlt|[->|Hlt]].
    + rewrite (Hlast _ _ Hlt Hj) in Hy. done.
    + congruence.
    + rewrite (Hlast' _ _ Hlt Hi) in Hx. done.
  - intros (Hi & Hx & _) Hnone. rewrite (Hnone _ _ Hi) in Hx. done.
  - intros Hnone (Hj & Hy & _). rewrite (Hnone _ _ Hj) in Hy. done.
  - done.
Qed.

Lemma last_match_none_existsb P cols :
  last_match P cols None ↔ existsb P cols = false.
Proof.
  simpl. split.
  - intros Hnone. apply not_true_is_false. intros Hex.
    apply existsb_exists in Hex as (z & Hin & Hz).
    apply list_elem_of_In, list_elem_of_lookup in Hin as [k Hk].
    rewrite (Hnone _ _ Hk) in Hz. done.
  - intros Hex k z Hk. apply not_true_is_false. intros Hz.
    assert (existsb P cols = true); [|congruence].
    apply existsb_exists. exists z. split; [|done].
    apply list_elem_of_In. by eapply list_elem_of_lookup_2.
Qed.

Lemma filter_none_lookup (P : string → bool) cols k z :
  length (List.filter P cols) = 0 → cols !! k = Some z → P z = false.
Proof.
  revert k; induction cols as [|a cols IH]; intros k Hlen Hk; [done|].
  simpl in Hlen. destruct (P a) eqn:Ha; [done|].
  destruct k as [|k]; simpl in Hk; [congruence | eauto].
Qed.

Lemma filter_one_lookup (P : string → bool) cols i x k z :
  length (List.filter P cols) = 1 →
  cols !! i = Some x → P x = true → cols !! k = Some z → P z = true → k = i.
Proof.
  revert i k; induction cols as [|a cols IH]; intros i k Hlen Hi Hx Hk Hz; [done|].
  simpl in Hlen. destruct (P a) eqn:Ha.
  - injection Hlen as Hlen.
    destruct i as [|i], k as [|k]; simpl in *; [done| | |].
    + rewrite (filter_none_lookup P cols k z Hlen Hk) in Hz. done.
    + rewrite (filter_none_lookup P cols i x Hlen Hi) in Hx. done.
    + rewrite (filter_none_lookup P cols i x Hlen Hi) in Hx. done.
  - destruct i as [|i], k as [|k]; simpl in *; [congruence..|].
    f_equal. eauto.
Qed.

Lemma last_match_of_one (P : string → bool) cols i x :
  length (List.filter P cols) = 1 → cols !! i = Some x → P x = true →
  last_match P cols (Some (i, x)).
Proof.
  intros Hone Hi Hx. repeat split; [done..|].
  intros k z Hlt Hk. apply not_true_is_false. intros Hz.
  pose proof (filter_one_lookup P cols i x k z Hone Hi Hx Hk Hz). lia.
Qed.

(** C3, as the code has it: when several columns match the aliases of one
    axis, the resolver returns the last of them in header order, since each
    match overwrites the slot.  For every header that resolves, the column
    returned for an axis matches its aliases and no column after it does. *)
Theorem C3_last_match_wins (cols : list string) (r : latlng_names) :
  get_latlon_names cols = Ok r →
  (cols !! fst (lat r) = Some (snd (lat r)) ∧ is_lat (snd (lat r)) = true ∧
   ∀ k z, fst (lat r) < k → cols !! k = Some z → is_lat z = false) ∧
  (cols !! fst (lng r) = Some (snd (lng r)) ∧ is_lng (snd (lng r)) = true ∧
   ∀ k z, fst (lng r) < k → cols !! k = Some z → is_lng z = false).
Proof.
  unfold get_latlon_names. intros Hr.
  destruct (scan_last_match cols) as [Hlat Hlng].
  destruct (slot_lat (scan cols)) as [[i x]|]; [|done].
  destruct (slot_lng (scan cols)) as [[j y]|]; [|done].
  injection Hr as <-. split; assumption.
Qed.

Lemma C3_last_match_wins_witness :
  (["lat"; "Latitude"; "lng"] !! 1 = Some "Latitude" ∧
   is_lat "Latitude" = true ∧
   ∀ k z, 1 < k → ["lat"; "Latitude"; "lng"] !! k = Some z → is_lat z = false) ∧
  (["lat"; "Latitude"; "lng"] !! 2 = Some "lng" ∧
   is_lng "lng" = true ∧
   ∀ k z, 2 < k → ["lat"; "Latitude"; "lng"] !! k = Some z → is_lng z = false).
Proof.
  exact (C3_last_match_wins ["lat"; "Latitude"; "lng"]
           {| lat := (1, "Latitude"); lng := (2, "lng") |} eq_refl).
Defined.

(** C3 as stated fails: with both "lat" and "Latitude" in the header, the
    first match is column 0, and the resolver returns column 1. *)
Lemma C3_first_match_refuted :
  is_lat "lat" = true ∧ is_lat "Latitude" = true ∧
  get_latlon_names ["lat"; "Latitude"; "lng"]
  = Ok {| lat := (1, "Latitude"); lng := (2, "lng") |}.
Proof. repeat split. Qed.

(** C4: in a header with exactly one latitude alias and exactly one
    longitude alias, at whatever positions, the resolver returns the index
    and name of each. *)
Theorem C4_unique_aliases_resolved (cols : list string) (i j : nat) (x y : string) :
  length (List.filter is_lat cols) = 1 →
  length (List.filter is_lng cols) = 1 →
  cols !! i = Some x → is_lat x = true →
  cols !! j = Some y → is_lng y = true →
  get_latlon_names cols = Ok {| lat := (i, x); lng := (j, y) |}.
Proof.
  intros Hlat1 Hlng1 Hi Hx Hj Hy. unfold get_latlon_names.
  destruct (scan_last_match cols) as [Hlat Hlng].
  rewrite (last_match_unique _ _ _ _ Hlat (last_match_of_one _ _ _ _ Hlat1 Hi Hx)).
  rewrite (last_match_unique _ _ _ _ Hlng (last_match_of_one _ _ _ _ Hlng1 Hj Hy)).
  reflexivity.
Qed.

Lemma C4_unique_aliases_resolved_witness :
  get_latlon_names ["val"; "LNG"; "height"; "Latitude"]
  = Ok {| lat := (3, "Latitude"); lng := (1, "LNG") |}.
Proof.
  exact (C4_unique_aliases_resolved ["val"; "LNG"; "height"; "Latitude"]
           3 1 "Latitude" "LNG" eq_refl eq_refl eq_refl eq_refl eq_refl eq_refl).
Defined.

(** C5, as the code has it: a header without a longitude alias makes the
    resolver raise a [KeyError] whose message is formatted with the whole
    column sequence; the message names Longitude when the header has a
    latitude alias, and Latitude when it has none either, since latitude is
    tested first. *)
Theorem C5_missing_longitude (cols : list string) :
  existsb is_lng cols = false →
  get_latlon_names cols =
  Raise (KeyError (Formatted (if existsb is_lat cols
                              then "Longitude is not found! {}"
                              else "Latitude is not found! {}") cols)).
Proof.
  intros Hnone. unfold get_latlon_names.
  destruct (scan_last_match cols) as [Hlat Hlng].
  apply last_match_none_existsb in Hnone.
  rewrite (last_match_unique _ _ _ _ Hlng Hnone).
  destruct (slot_lat (scan cols)) as [[i x]|] eqn:Hslot.
  - destruct Hlat as (Hi & Hx & _).
    assert (Hex : existsb is_lat cols = true).
    { apply existsb_exists. exists x. split; [|done].
      apply list_elem_of_In. by eapply list_elem_of_lookup_2. }
    by rewrite Hex.
  - apply last_match_none_existsb in Hlat. by rewrite Hlat.
Qed.

Lemma C5_missing_longitude_witness :
  get_latlon_names ["id"; "Lat"; "val"] =
  Raise (KeyError (Formatted "Longitude is not found! {}" ["id"; "Lat"; "val"])).
Proof. exact (C5_missing_longitude ["id"; "Lat"; "val"] eq_refl). Defined.

(** C5 as stated fails: a header with neither axis has no longitude alias,
    and the error names Latitude. *)
Lemma C5_names_latitude_first :
  existsb is_lng ["id"; "val"] = false ∧
  get_latlon_names ["id"; "val"] =
  Raise (KeyError (Formatted "Latitude is not found! {}" ["id"; "val"])).
Proof. split; reflexivity. Qed.

(** ** What the methods leave alone *)

Create HintDb frame.

Lemma keeps_self_ret {A} (a : A) : keeps_self (ret a).
Proof. by intros st. Qed.
Lemma keeps_self_raise {A} e : keeps_self (@raise A e).
Proof. by intros st. Qed.
Lemma keeps_self_lift {A} (r : result A) : keeps_self (lift r).
Proof. by intros st. Qed.
Lemma keeps_self_get_self : keeps_self get_self.
Proof. by intros st. Qed.
Lemma keeps_self_get_fs : keeps_self get_fs.
Proof. by intros st. Qed.
Lemma keeps_self_put_fs f : keeps_self (put_fs f).
Proof. by intros st. Qed.

Lemma keeps_self_bind {A B} (m : M A) (k : A → M B) :
  keeps_self m → (∀ a, keeps_self (k a)) → keeps_self (bind m k).
Proof.
  intros Hm Hk st. unfold bind. specialize (Hm st).
  destruct (m st) as [[a|e] st']; simpl in *; [|done].
  by rewrite Hk.
Qed.

#[local] Hint Resolve keeps_self_ret keeps_self_raise keeps_self_lift
  keeps_self_get_self keeps_self_get_fs keeps_self_put_fs : frame.

Ltac frame_bind :=
  repeat (apply keeps_self_bind; [auto with frame | intros ?]).

Lemma keeps_self_lexists path : keeps_self (os_path.lexists path).
Proof. unfold os_path.lexists. frame_bind. auto with frame. Qed.

Lemma keeps_self_read_csv path : keeps_self (read_csv path).
Proof.
  unfold read_csv. frame_bind.
  destruct (_ !! path) as [[]|]; auto with frame.
Qed.

Lemma keeps_self_rasterio_open `{Externals} path p :
  keeps_self (rasterio_open path p).
Proof.
  unfold rasterio_open. frame_bind. case_match; [|auto with frame].
  frame_bind. auto with frame.
Qed.

Lemma keeps_self_dst_write path arr i : keeps_self (dst_write path arr i).
Proof.
  unfold dst_write. frame_bind.
  destruct (_ !! path) as [[]|]; auto with frame.
Qed.

#[local] Hint Resolve keeps_self_lexists keeps_self_read_csv
  keeps_self_rasterio_open keeps_self_dst_write : frame.

Section Frame.
Context `{Externals}.

Lemma keeps_self_write_bands out gdf nxy t nodata cols :
  keeps_self (write_bands out gdf nxy t nodata cols).
Proof.
  induction cols as [|[i z_name] cols IH]; simpl; [auto with frame|].
  frame_bind. exact IH.
Qed.

Lemma keeps_self_convert_csv a b : keeps_self (convert_csv a b).
Proof.
  unfold convert_csv. frame_bind.
  match goal with g : _ * (Z * Z) |- _ => destruct g as [[[[? ?] ?] ?] ?] end.
  frame_bind. apply keeps_self_write_bands.
Qed.

Lemma keeps_self_execute_one a : keeps_self (execute_one a).
Proof.
  unfold execute_one. destruct (os_path.splitext _) as [body suffix].
  frame_bind. repeat case_match; auto using keeps_self_convert_csv with frame.
Qed.

Lemma keeps_self_execute_each names : keeps_self (execute_each names).
Proof.
  induction names as [|a names IH]; simpl; [auto with frame|].
  apply keeps_self_bind; [apply keeps_self_execute_one | intros _; exact IH].
Qed.

Lemma keeps_self_execute_all : keeps_self execute_all.
Proof.
  unfold execute_all. frame_bind. apply keeps_self_execute_each.
Qed.

End Frame.

(** C10: [output_file_list] is empty after [__init__], and [convert_csv],
    [execute_one] and [execute_all] leave it as it was, however they end;
    so after [execute_all] on a new instance it is still empty. *)
Theorem C10_output_file_list_never_written `{Externals} :
  (∀ l c r, output_file_list (init l c r) = []) ∧
  (∀ a b st, output_file_list (self (snd (convert_csv a b st)))
             = output_file_list (self st)) ∧
  (∀ a st, output_file_list (self (snd (execute_one a st)))
           = output_file_list (self st)) ∧
  (∀ st, output_file_list (self (snd (execute_all st)))
         = output_file_list (self st)) ∧
  (∀ l c r f,
     output_file_list
       (self (snd (execute_all {| self := init l c r; fs := f |}))) = []).
Proof.
  repeat split; intros.
  - by rewrite keeps_self_convert_csv.
  - by rewrite keeps_self_execute_one.
  - by rewrite keeps_self_execute_all.
  - by rewrite keeps_self_execute_all.
Qed.

(** ** The errors a conversion can end in *)

Lemma not_plain_oserror_Ok {A} (a : A) : not_plain_oserror (Ok a).
Proof. by intros msg. Qed.

Lemma not_plain_oserror_rbind {A B} (r : result A) (k : A → result B) :
  not_plain_oserror r → (∀ a, not_plain_oserror (k a)) →
  not_plain_oserror (rbind r k).
Proof.
  intros Hr Hk. destruct r as [a|e]; simpl; [apply Hk|].
  intros msg [= ->]. by apply (Hr msg).
Qed.

Lemma not_plain_oserror_get_latlon_names cols :
  not_plain_oserror (get_latlon_names cols).
Proof. unfold get_latlon_names. intros msg. by repeat case_match. Qed.

Lemma not_plain_oserror_getitem df name : not_plain_oserror (getitem df name).
Proof.
  induction df as [|[c vs] df IH]; simpl; [by intros msg|].
  case_match; [apply not_plain_oserror_Ok | exact IH].
Qed.

Lemma not_plain_oserror_drop names df : not_plain_oserror (drop names df).
Proof. unfold drop. intros msg. by case_match. Qed.

Lemma not_plain_oserror_py_int v : not_plain_oserror (py_int v).
Proof. unfold py_int. intros msg. by case_match. Qed.

Lemma not_plain_oserror_to_gdf crs df : not_plain_oserror (to_gdf crs df).
Proof.
  unfold to_gdf.
  apply not_plain_oserror_rbind;
    [apply not_plain_oserror_get_latlon_names | intros names].
  do 2 (apply not_plain_oserror_rbind;
          [apply not_plain_oserror_getitem | intros ?]).
  apply not_plain_oserror_rbind; [apply not_plain_oserror_drop | intros ?].
  apply not_plain_oserror_Ok.
Qed.

Lemma not_plain_oserror_grid_sizer `{Externals} res gdf :
  not_plain_oserror (grid_sizer res gdf).
Proof.
  unfold grid_sizer. destruct (total_bounds gdf) as [[[b0 b1] b2] b3].
  apply not_plain_oserror_rbind; [unfold geometry0; intros msg; by case_match|].
  intros g0.
  repeat (apply not_plain_oserror_rbind; [apply not_plain_oserror_py_int|intros ?]).
  apply not_plain_oserror_Ok.
Qed.

Lemma not_plain_oserror_rasterize `{Externals} shapes shape t fill touched :
  not_plain_oserror (rasterize shapes shape t fill touched).
Proof. unfold rasterize. intros msg. by case_match. Qed.

Lemma never_plain_oserror_bind {A B} (m : M A) (k : A → M B) :
  never_plain_oserror m → (∀ a, never_plain_oserror (k a)) →
  never_plain_oserror (bind m k).
Proof.
  intros Hm Hk st. unfold bind. specialize (Hm st).
  destruct (m st) as [[a|e] st']; simpl in *; [apply Hk|].
  intros msg [= ->]. by apply (Hm msg).
Qed.

Lemma never_plain_oserror_lift {A} (r : result A) :
  not_plain_oserror r → never_plain_oserror (lift r).
Proof. by intros Hr st. Qed.

Lemma never_plain_oserror_ret {A} (a : A) : never_plain_oserror (ret a).
Proof. by intros st msg. Qed.

Lemma never_plain_oserror_state {A} (m : M A) :
  (∀ st, ∃ a, fst (m st) = Ok a) → never_plain_oserror m.
Proof. intros Hm st msg. destruct (Hm st) as [a ->]. done. Qed.

Lemma never_plain_oserror_read_csv path : never_plain_oserror (read_csv path).
Proof.
  intros st msg. unfold read_csv, bind, get_fs, ret, raise. simpl.
  by repeat case_match.
Qed.

Lemma never_plain_oserror_dst_write path arr i :
  never_plain_oserror (dst_write path arr i).
Proof.
  intros st msg. unfold dst_write, bind, get_fs, put_fs, ret. simpl.
  by repeat case_match.
Qed.

Section Errors.
Context `{Externals}.

Lemma never_plain_oserror_rasterio_open path p :
  never_plain_oserror (rasterio_open path p).
Proof.
  intros st msg. unfold rasterio_open, bind, get_fs, put_fs, raise. simpl.
  by case_match.
Qed.

Lemma never_plain_oserror_write_bands out gdf nxy t nodata cols :
  never_plain_oserror (write_bands out gdf nxy t nodata cols).
Proof.
  induction cols as [|[i z_name] cols IH]; simpl;
    [apply never_plain_oserror_ret|].
  apply never_plain_oserror_bind;
    [apply never_plain_oserror_lift, not_plain_oserror_getitem | intros zs].
  apply never_plain_oserror_bind;
    [apply never_plain_oserror_lift, not_plain_oserror_rasterize | intros arr].
  apply never_plain_oserror_bind;
    [apply never_plain_oserror_dst_write | intros _; exact IH].
Qed.

(** [convert_csv] ends in no exception made by [OSError(...)] itself: the
    class raises these in [execute_one] only, before the table is read.
    What [pd.read_csv] and [rasterio.open] raise is of other classes, two
    of them subclasses of [OSError]. *)
Lemma never_plain_oserror_convert_csv a b :
  never_plain_oserror (convert_csv a b).
Proof.
  unfold convert_csv.
  apply never_plain_oserror_bind;
    [apply never_plain_oserror_read_csv | intros df].
  apply never_plain_oserror_bind;
    [by apply never_plain_oserror_state; eexists | intros this].
  apply never_plain_oserror_bind;
    [apply never_plain_oserror_lift, not_plain_oserror_to_gdf | intros gdf].
  apply never_plain_oserror_bind;
    [apply never_plain_oserror_lift, not_plain_oserror_grid_sizer | intros grid].
  destruct grid as [[[[b0 b1] b2] b3] nxy].
  apply never_plain_oserror_bind;
    [apply never_plain_oserror_rasterio_open | intros _].
  apply never_plain_oserror_write_bands.
Qed.

End Errors.

(** ** The guards of [execute_one] *)

Lemma execute_one_unfold `{Externals} (input_file_name : string) (st : State) :
  execute_one input_file_name st =
  let name := os_path.splitext (os_path.basename input_file_name) in
  if negb (bool_decide (is_Some (fs st !! input_file_name)))
  then (Raise (OSError (Literal "File not found!")), st)
  else if negb (Str.lower (snd name) =? ".csv")
  then (Raise (OSError (Literal "File extension is invalid! Only 'csv' is available.")), st)
  else convert_csv input_file_name
         (os_path.join (os_path.dirname input_file_name) (fst name +:+ ".tif")) st.
Proof.
  unfold execute_one. destruct (os_path.splitext _) as [body suffix]. simpl.
  unfold bind, os_path.lexists, bind, get_fs, ret, raise. simpl.
  by repeat case_match.
Qed.

(** C9: a path that is not there raises "File not found!" whatever its
    extension; the extension error is raised exactly for the paths that are
    there and whose extension, put to lower case, is not ".csv"; a path
    that is there with such an extension, in any mix of cases, goes on to
    [convert_csv]. *)
Theorem C9_existence_checked_first `{Externals} (input_file_name : string) (st : State) :
  let name := os_path.splitext (os_path.basename input_file_name) in
  let extension_error :=
    OSError (Literal "File extension is invalid! Only 'csv' is available.") in
  (fs st !! input_file_name = None →
   execute_one input_file_name st = (Raise (OSError (Literal "File not found!")), st)) ∧
  (fst (execute_one input_file_name st) = Raise extension_error ↔
   is_Some (fs st !! input_file_name) ∧ Str.lower (snd name) ≠ ".csv") ∧
  (is_Some (fs st !! input_file_name) → Str.lower (snd name) = ".csv" →
   execute_one input_file_name st =
   convert_csv input_file_name
     (os_path.join (os_path.dirname input_file_name) (fst name +:+ ".tif")) st).
Proof.
  intros name extension_error. rewrite execute_one_unfold. fold name.
  destruct (fs st !! input_file_name) as [file|] eqn:Hfile.
  - rewrite bool_decide_true by eauto. simpl.
    destruct (String.eqb_spec (Str.lower (snd name)) ".csv") as [Heq|Hne]; simpl.
    + split; [done|]. split; [|done]. split.
      * intros Hraise. by apply never_plain_oserror_convert_csv in Hraise.
      * intros [_ Hne]. done.
    + split; [done|]. split; [|done]. split; [eauto|done].
  - rewrite bool_decide_false by (by intros [? ?]). simpl.
    split; [done|]. split; [|by intros [? ?]]. split; [done|by intros [[? ?] _]].
Qed.

Example execute_one_upper_case_extension :
  fst (@execute_one Sample.externals "data/survey.CSV" Sample.start) = Ok tt.
Proof. vm_compute. reflexivity. Qed.

Example execute_one_present_and_not_csv :
  fst (@execute_one Sample.externals "notes.txt" Sample.start)
  = Raise (OSError (Literal "File extension is invalid! Only 'csv' is available.")).
Proof. vm_compute. reflexivity. Qed.

Example execute_one_missing_and_not_csv :
  fst (@execute_one Sample.externals "nothing.txt" Sample.start)
  = Raise (OSError (Literal "File not found!")).
Proof. vm_compute. reflexivity. Qed.

(** ** The grid sizer *)

(** [int] of a finite float is the integer part of its exact value, rounded
    toward zero. *)
Lemma py_int_truncate (v : float) (q : Q) :
  exact_value v = Some q → py_int v = Ok (truncate q).
Proof.
  unfold exact_value, py_int, truncate.
  destruct (Prim2SF v) as [s| | |s m e]; try done.
  - by intros [= <-].
  - intros [= <-]. f_equal. destruct e as [|k|k]; simpl Qnum; simpl Qden.
    + rewrite Z.shiftl_0_r, Z.mul_1_r, Z.quot_1_r. done.
    + rewrite Z.quot_1_r, Z.shiftl_mul_pow2 by lia.
      destruct s; simpl; lia.
    + rewrite Z.shiftl_div_pow2 by lia.
      rewrite Pos2Z.inj_pow. change (- Z.neg k)%Z with (Z.pos k).
      assert (0 < 2 ^ Z.pos k)%Z by (apply Z.pow_pos_nonneg; lia).
      destruct s; simpl.
      * change (Z.neg m) with (- Z.pos m)%Z.
        rewrite Z.quot_opp_l by lia. f_equal.
        symmetry. apply Z.quot_div_nonneg; lia.
      * symmetry. apply Z.quot_div_nonneg; lia.
Qed.

Example py_int_toward_zero :
  py_int 2.75%float = Ok 2%Z ∧ py_int (-2.75)%float = Ok (-2)%Z ∧
  py_int 0.5%float = Ok 0%Z ∧ py_int (-0.5)%float = Ok 0%Z.
Proof. repeat split. Qed.

(** C6: for a point cloud with a first point, the reference point of the
    grid is that first point, as (lat, lng); the width is [int] of
    (max_lon - min_lon) over the longitude gained by going one resolution
    east of it, the height [int] of (max_lat - min_lat) over the latitude
    gained by going north; and [int] rounds toward zero. *)
Theorem C6_grid_from_first_point `{Externals} (resolution : float)
    (gdf : GeoDataFrame) (first : Point.t) (others : list Point.t) :
  geometry gdf = first :: others →
  let reference := (Point.y first, Point.x first) in
  let lon_per_cell :=
    (snd (inverse_haversine reference resolution EAST METERS) - Point.x first)%float in
  let lat_per_cell :=
    (fst (inverse_haversine reference resolution NORTH METERS) - Point.y first)%float in
  let '(min_lon, min_lat, max_lon, max_lat) := total_bounds gdf in
  grid_sizer resolution gdf =
    (let? width := py_int ((max_lon - min_lon) / lon_per_cell)%float in
     let? height := py_int ((max_lat - min_lat) / lat_per_cell)%float in
     Ok (total_bounds gdf, (width, height))) ∧
  (∀ q, exact_value ((max_lon - min_lon) / lon_per_cell)%float = Some q →
        py_int ((max_lon - min_lon) / lon_per_cell)%float = Ok (truncate q)) ∧
  (∀ q, exact_value ((max_lat - min_lat) / lat_per_cell)%float = Some q →
        py_int ((max_lat - min_lat) / lat_per_cell)%float = Ok (truncate q)).
Proof.
  intros Hgeom reference lon_per_cell lat_per_cell.
  unfold grid_sizer, geometry0. rewrite Hgeom.
  destruct (total_bounds gdf) as [[[min_lon min_lat] max_lon] max_lat]. simpl.
  split; [reflexivity|]. split; intros q; apply py_int_truncate.
Qed.

Lemma C6_grid_from_first_point_witness :
  @grid_sizer Sample.externals 1000.0%float Sample.cloud
  = Ok ((139.0, 35.0, 139.5, 35.25)%float, (55, 27)%Z).
Proof.
  pose proof (C6_grid_from_first_point (H := Sample.externals) 1000.0%float
                Sample.cloud (Point.make 139.0 35.0) [Point.make 139.5 35.25]
                eq_refl) as Hw.
  cbv zeta in Hw. simpl in Hw. destruct Hw as [Hgrid _].
  rewrite Hgrid. vm_compute. reflexivity.
Defined.

(** ** Frames with distinct labels *)

Lemma getitem_in df name vs : getitem df name = Ok vs → (name, vs) ∈ df.
Proof.
  induction df as [|[c ws] df IH]; simpl; [done|].
  destruct (String.eqb_spec c name) as [->|Hne].
  - intros [= ->]. by left.
  - intros Hget. right. by apply IH.
Qed.

Lemma getitem_columns df name :
  name ∈ columns df → ∃ vs, getitem df name = Ok vs.
Proof.
  induction df as [|[c ws] df IH]; simpl; [by intros ?%elem_of_nil|].
  destruct (String.eqb_spec c name) as [->|Hne]; [by eauto|].
  intros [?|Hin]%elem_of_cons; [congruence | by apply IH].
Qed.

Lemma getitem_lookup df i name vs :
  wf_frame df → df !! i = Some (name, vs) → getitem df name = Ok vs.
Proof.
  unfold wf_frame. revert i; induction df as [|[c ws] df IH]; intros i Hwf Hi; [done|].
  simpl in *. apply NoDup_cons in Hwf as [Hc Hwf].
  destruct i as [|i]; simpl in Hi.
  - injection Hi as -> ->. by rewrite String.eqb_refl.
  - destruct (String.eqb_spec c name) as [->|Hne]; [|by eauto].
    exfalso. apply Hc. apply list_elem_of_lookup_2 in Hi.
    apply list_elem_of_fmap. by exists (name, vs).
Qed.

(** The frame without the columns labelled [a] and [b], in its order. *)
Lemma drop_present a b df :
  a ∈ columns df → b ∈ columns df →
  drop [a; b] df =
  Ok (List.filter (λ c, negb (existsb (String.eqb (fst c)) [a; b])) df).
Proof.
  intros Ha Hb. unfold drop.
  assert (Hin : ∀ n, n ∈ columns df → existsb (String.eqb n) (columns df) = true).
  { intros n Hn. apply existsb_exists. exists n.
    split; [by apply list_elem_of_In | apply String.eqb_refl]. }
  simpl. by rewrite (Hin a Ha), (Hin b Hb).
Qed.

Lemma filter_out_one (a : string) (cols : list string) :
  NoDup cols → a ∈ cols →
  length (List.filter (λ c, negb (c =? a)) cols) + 1 = length cols.
Proof.
  induction cols as [|c cols IH]; intros Hnd Ha; [by apply elem_of_nil in Ha|].
  apply NoDup_cons in Hnd as [Hc Hnd]. simpl.
  destruct (String.eqb_spec c a) as [->|Hne]; simpl.
  - f_equal. clear IH Ha. induction cols as [|d cols IH]; simpl; [done|].
    apply not_elem_of_cons in Hc as [Hd Hc].
    destruct (String.eqb_spec d a) as [->|_]; [done|]. simpl. f_equal.
    apply NoDup_cons in Hnd as [_ Hnd]. by apply IH.
  - apply elem_of_cons in Ha as [->|Ha]; [done|]. rewrite <-(IH Hnd Ha). lia.
Qed.

Lemma filter_out_two (a b : string) (cols : list string) :
  NoDup cols → a ∈ cols → b ∈ cols → a ≠ b →
  length (List.filter (λ c, negb (existsb (String.eqb c) [a; b])) cols) + 2
  = length cols.
Proof.
  intros Hnd Ha Hb Hab.
  assert (Hsplit : List.filter (λ c, negb (existsb (String.eqb c) [a; b])) cols
          = List.filter (λ c, negb (c =? b))
                        (List.filter (λ c, negb (c =? a)) cols)).
  { clear. induction cols as [|c cols IH]; [done|].
    cbn [List.filter]. rewrite IH. cbn [existsb].
    destruct (c =? a); simpl; [done|]. by destruct (c =? b). }
  rewrite Hsplit.
  pose proof (filter_out_one a cols Hnd Ha) as Hone.
  pose proof (filter_out_one b (List.filter (λ c, negb (c =? a)) cols)) as Htwo.
  rewrite <-Hone, <-Htwo; [lia| |].
  - apply NoDup_ListNoDup, List.NoDup_filter, NoDup_ListNoDup, Hnd.
  - apply list_elem_of_In, filter_In. split; [by apply list_elem_of_In|].
    apply negb_true_iff. by apply String.eqb_neq.
Qed.

(** The two columns that the resolver returns are in the header, under
    different labels. *)
Lemma resolved_columns cols names :
  get_latlon_names cols = Ok names →
  snd (lat names) ∈ cols ∧ snd (lng names) ∈ cols ∧
  snd (lat names) ≠ snd (lng names).
Proof.
  intros Hres. unfold get_latlon_names in Hres.
  destruct (scan_last_match cols) as [Hlat Hlng].
  destruct (slot_lat (scan cols)) as [[i x]|]; [|done].
  destruct (slot_lng (scan cols)) as [[j y]|]; [|done].
  injection Hres as <-. simpl.
  destruct Hlat as (Hi & Hx & _), Hlng as (Hj & Hy & _).
  repeat split; [by eapply list_elem_of_lookup_2..|].
  intros ->. apply is_lat_not_lng in Hx. congruence.
Qed.

Lemma lookup_columns (df : DataFrame) i : columns df !! i = fst <$> df !! i.
Proof.
  revert i; induction df as [|c df IH]; intros [|i]; simpl; auto.
Qed.

Lemma columns_filter (keep : string → bool) (df : DataFrame) :
  columns (List.filter (λ c, keep (fst c)) df) = List.filter keep (columns df).
Proof.
  induction df as [|[c ws] df IH]; simpl; [done|].
  destruct (keep c); simpl; by rewrite IH.
Qed.

(** The attribute columns of a table whose axes the resolver named
    [names]: the table without those two columns, in its order. *)
Lemma to_gdf_inv crs df gdf :
  to_gdf crs df = Ok gdf →
  ∃ names xs ys,
    get_latlon_names (columns df) = Ok names ∧
    getitem df (snd (lng names)) = Ok xs ∧
    getitem df (snd (lat names)) = Ok ys ∧
    gdf = {| frame := List.filter
               (λ c, negb (existsb (String.eqb (fst c))
                                   [snd (lat names); snd (lng names)])) df;
             gdf_crs := crs;
             geometry := map Point (zip xs ys) |}.
Proof.
  unfold to_gdf. intros Hgdf.
  destruct (get_latlon_names (columns df)) as [names|] eqn:Hnames; [|done].
  simpl in Hgdf.
  destruct (getitem df (snd (lng names))) as [xs|] eqn:Hxs; [|done].
  destruct (getitem df (snd (lat names))) as [ys|] eqn:Hys; [|done].
  simpl in Hgdf.
  destruct (resolved_columns _ _ Hnames) as (Hlat & Hlng & _).
  rewrite (drop_present _ _ _ Hlat Hlng) in Hgdf. simpl in Hgdf.
  injection Hgdf as <-. by exists names, xs, ys.
Qed.

Lemma to_gdf_resolved crs df names :
  get_latlon_names (columns df) = Ok names →
  ∃ gdf, to_gdf crs df = Ok gdf.
Proof.
  intros Hnames. unfold to_gdf. rewrite Hnames. simpl.
  destruct (resolved_columns _ _ Hnames) as (Hlat & Hlng & _).
  destruct (getitem_columns _ _ Hlng) as [xs ->].
  destruct (getitem_columns _ _ Hlat) as [ys ->]. simpl.
  rewrite (drop_present _ _ _ Hlat Hlng). simpl. eauto.
Qed.

Lemma to_gdf_count crs df gdf :
  wf_frame df → to_gdf crs df = Ok gdf →
  wf_frame (frame gdf) ∧ length (columns (frame gdf)) = length (columns df) - 2.
Proof.
  intros Hwf (names & xs & ys & Hnames & _ & _ & ->)%to_gdf_inv. simpl.
  destruct (resolved_columns _ _ Hnames) as (Hlat & Hlng & Hne).
  unfold wf_frame.
  rewrite (columns_filter
             (λ c, negb (existsb (String.eqb c) [snd (lat names); snd (lng names)]))).
  split.
  - apply NoDup_ListNoDup, List.NoDup_filter, NoDup_ListNoDup, Hwf.
  - pose proof (filter_out_two _ _ _ Hwf Hlat Hlng Hne). lia.
Qed.

(** ** Running the conversion *)

Section Run.
Context `{Externals}.

Lemma write_bands_inv out gdf nxy t nd cols :
  ∀ n st st' p B,
    fs st !! out = Some (TifFile {| profile := p; written := B |}) →
    write_bands out gdf nxy t nd (enumerate_from n cols) st = (Ok tt, st') →
    ∃ B',
      st' = {| self := self st;
               fs := <[out := TifFile {| profile := p; written := B' |}]> (fs st) |} ∧
      (∀ i c, cols !! i = Some c →
         ∃ zs arr, getitem (frame gdf) c = Ok zs ∧
                   rasterize (zip (geometry gdf) zs) nxy t nd true = Ok arr ∧
                   B' !! (n + i + 1) = Some arr) ∧
      (∀ k, (k ≤ n ∨ n + length cols < k)%nat → B' !! k = B !! k).
Proof.
  induction cols as [|c cols IH]; intros n st st' p B Hout Hrun.
  - injection Hrun as <-. exists B. split; [|split; [done|done]].
    destruct st as [this f]. simpl in *. f_equal. by rewrite insert_id.
  - simpl in Hrun. unfold bind, lift in Hrun.
    destruct (getitem (frame gdf) c) as [zs|] eqn:Hzs; [|done].
    destruct (rasterize (zip (geometry gdf) zs) nxy t nd true) as [arr|] eqn:Harr;
      [|done].
    unfold dst_write, bind, get_fs, put_fs in Hrun.
    simpl in Hrun. rewrite Hout in Hrun. simpl in Hrun.
    apply IH with (p := p) (B := <[n + 1 := arr]> B) in Hrun;
      [|simpl; by rewrite lookup_insert_eq].
    destruct Hrun as (B' & -> & Hbands & Hrest). simpl.
    exists B'. split; [by rewrite insert_insert_eq|]. split.
    + intros [|i] d Hi; simpl in Hi.
      * injection Hi as <-. exists zs, arr. repeat split; [done..|].
        rewrite Nat.add_0_r, Hrest by lia. by rewrite lookup_insert_eq.
      * destruct (Hbands i d Hi) as (zs' & arr' & ? & ? & HB).
        exists zs', arr'. repeat split; [done..|].
        by replace (n + S i + 1) with (S n + i + 1) by lia.
    + intros k Hk. simpl in Hk. rewrite Hrest by lia.
      apply lookup_insert_ne. lia.
Qed.

Lemma write_bands_succeeds out gdf nxy t nd cols :
  (0 <= fst nxy)%Z → (0 <= snd nxy)%Z →
  (∀ c, c ∈ cols → c ∈ columns (frame gdf)) →
  ∀ n st d,
    fs st !! out = Some (TifFile d) →
    ∃ st', write_bands out gdf nxy t nd (enumerate_from n cols) st = (Ok tt, st').
Proof.
  intros Hw Hh. induction cols as [|c cols IH]; intros Hcols n st d Hout.
  - by eexists.
  - simpl. unfold bind, lift.
    destruct (getitem_columns (frame gdf) c) as [zs ->];
      [apply Hcols; by left|].
    unfold rasterize.
    assert ((fst nxy <? 0)%Z || (snd nxy <? 0)%Z = false) as ->.
    { apply orb_false_iff. split; apply Z.ltb_ge; lia. }
    unfold dst_write, bind, get_fs, put_fs. simpl.
    rewrite Hout. destruct d as [p B]. simpl.
    eapply IH; [intros; apply Hcols; by right|].
    simpl. by rewrite lookup_insert_eq.
Qed.

End Run.

Section Conversion.
Context `{Externals}.

(** [convert_csv] on a path that holds a table: what the resolver or the
    grid sizer raise ends the call before any file is made; otherwise the
    raster is created with its profile and the bands are written. *)
Lemma convert_csv_unfold input output st df :
  fs st !! input = Some (CsvFile df) →
  convert_csv input output st =
  match to_gdf (crs_code (self st)) df with
  | Raise e => (Raise e, st)
  | Ok gdf =>
      match grid_sizer (resolution (self st)) gdf with
      | Raise e => (Raise e, st)
      | Ok ((b0, b1, b2, b3), nxy) =>
          let p := raster_profile (crs_code (self st))
                     (length (columns (frame gdf))) b0 b1 b2 b3 (fst nxy) (snd nxy) in
          if refused p
          then (Raise RasterioIOError,
                {| self := self st; fs := cleared output (fs st) |})
          else
            write_bands output gdf nxy (transform p) (-9999.0)%float
              (enumerate (columns (frame gdf)))
              {| self := self st;
                 fs := <[output := TifFile {| profile := p; written := ∅ |}]>
                         (fs st) |}
      end
  end.
Proof.
  intros Hfile. unfold convert_csv, read_csv, bind, get_fs, get_self, lift.
  simpl. rewrite Hfile. unfold ret.
  destruct (to_gdf _ df) as [gdf|e]; [|done].
  destruct (grid_sizer _ gdf) as [[[[[b0 b1] b2] b3] nxy]|e]; [|done].
  cbv zeta. unfold rasterio_open, bind, get_fs, put_fs, raise. simpl.
  fold (raster_profile (crs_code (self st)) (length (columns (frame gdf)))
          b0 b1 b2 b3 (fst nxy) (snd nxy)).
  by destruct (refused _).
Qed.

Lemma convert_csv_reads input output st :
  fst (convert_csv input output st) = Ok tt →
  ∃ df, fs st !! input = Some (CsvFile df).
Proof.
  unfold convert_csv, read_csv, bind, get_fs. simpl.
  destruct (fs st !! input) as [[df| |]|]; by eauto.
Qed.

Lemma refused_false p :
  refused p = false ↔ (1 <= width p)%Z ∧ (1 <= height p)%Z ∧ (1 ≤ count p)%nat.
Proof.
  unfold refused. rewrite !orb_false_iff, !Z.leb_gt, Nat.eqb_neq. lia.
Qed.

(** The raster that a conversion leaves when it returns. *)
Lemma convert_csv_returns input output st df :
  fs st !! input = Some (CsvFile df) →
  fst (convert_csv input output st) = Ok tt →
  ∃ gdf b0 b1 b2 b3 w h d,
    to_gdf (crs_code (self st)) df = Ok gdf ∧
    grid_sizer (resolution (self st)) gdf = Ok ((b0, b1, b2, b3), (w, h)) ∧
    fs (snd (convert_csv input output st)) !! output = Some (TifFile d) ∧
    profile d = {| driver := "GTiff";
                   width := w;
                   height := h;
                   count := length (columns (frame gdf));
                   dtype := "float32";
                   crs := "EPSG:" +:+ pretty (crs_code (self st));
                   transform := from_bounds b0 b1 b2 b3 w h;
                   nodata := (-9999.0)%float |} ∧
    (∀ i c, columns (frame gdf) !! i = Some c →
       ∃ zs arr,
         getitem (frame gdf) c = Ok zs ∧
         rasterize (zip (geometry gdf) zs) (w, h) (from_bounds b0 b1 b2 b3 w h)
                   (-9999.0)%float true = Ok arr ∧
         written d !! (i + 1) = Some arr) ∧
    (∀ k, (k = 0 ∨ length (columns (frame gdf)) < k)%nat → written d !! k = None) ∧
    refused (profile d) = false.
Proof.
  intros Hfile Hok. rewrite (convert_csv_unfold _ _ _ _ Hfile) in Hok |- *.
  destruct (to_gdf _ df) as [gdf|e] eqn:Hgdf; [|done].
  destruct (grid_sizer _ gdf) as [[[[[b0 b1] b2] b3] [w h]]|e] eqn:Hgrid; [|done].
  cbv zeta in Hok |- *. destruct (refused _) eqn:Hrefused; [done|].
  simpl in Hok |- *.
  match type of Hok with fst (write_bands _ _ _ _ _ _ ?s) = _ =>
    set (st0 := s) in * end.
  destruct (write_bands _ _ _ _ _ _ st0) as [r st'] eqn:Hrun.
  simpl in Hok. subst r.
  eapply write_bands_inv in Hrun; [|subst st0; simpl; apply lookup_insert_eq].
  destruct Hrun as (B' & -> & Hbands & Hrest).
  eexists gdf, b0, b1, b2, b3, w, h, _.
  split; [done|]. split; [done|]. split; [simpl; apply lookup_insert_eq|].
  split; [done|]. split; [|split; [|done]].
  - intros i c Hi. destruct (Hbands i c Hi) as (zs & arr & ? & ? & ?). eauto.
  - intros k Hk. simpl. rewrite Hrest by lia. apply lookup_empty.
Qed.

Lemma convert_csv_succeeds input output st df gdf bbox w h :
  fs st !! input = Some (CsvFile df) →
  to_gdf (crs_code (self st)) df = Ok gdf →
  grid_sizer (resolution (self st)) gdf = Ok (bbox, (w, h)) →
  (1 <= w)%Z → (1 <= h)%Z → (1 ≤ length (columns (frame gdf)))%nat →
  fst (convert_csv input output st) = Ok tt.
Proof.
  intros Hfile Hgdf Hgrid Hw Hh Hn. rewrite (convert_csv_unfold _ _ _ _ Hfile).
  rewrite Hgdf, Hgrid. destruct bbox as [[[b0 b1] b2] b3]. cbv zeta.
  rewrite (proj2 (refused_false _)) by done. simpl.
  match goal with |- fst (write_bands ?o ?g ?n ?t ?nd _ ?s) = _ =>
    destruct (write_bands_succeeds o g n t nd (columns (frame gdf))
                ltac:(simpl; lia) ltac:(simpl; lia) (λ c Hc, Hc) 0 s _
                (lookup_insert_eq _ _ _)) as [st' Hrun]
  end.
  unfold enumerate. by rewrite Hrun.
Qed.

End Conversion.

(** ** The output raster *)

(** C8: when a table with pairwise distinct labels is converted and the call
    returns, the raster file has as many bands as the table has columns
    less two, sample type "float32", nodata -9999.0, and the CRS tag made of
    the instance's EPSG code; band [i + 1] is the rasterization of the
    [i]-th of the columns that are left once the two coordinate columns are
    taken out, in the order of the table, filled with that same nodata. *)
Theorem C8_output_raster `{Externals} (input output : string) (st : State)
    (df : DataFrame) :
  fs st !! input = Some (CsvFile df) →
  wf_frame df →
  fst (convert_csv input output st) = Ok tt →
  ∃ names gdf d,
    get_latlon_names (columns df) = Ok names ∧
    to_gdf (crs_code (self st)) df = Ok gdf ∧
    frame gdf = List.filter
                  (λ c, negb (existsb (String.eqb (fst c))
                                      [snd (lat names); snd (lng names)])) df ∧
    fs (snd (convert_csv input output st)) !! output = Some (TifFile d) ∧
    count (profile d) = length (columns df) - 2 ∧
    dtype (profile d) = "float32" ∧
    nodata (profile d) = (-9999.0)%float ∧
    crs (profile d) = "EPSG:" +:+ pretty (crs_code (self st)) ∧
    (∀ k, is_Some (written d !! k) ↔ (1 ≤ k ≤ count (profile d))%nat) ∧
    (∀ i name zs, frame gdf !! i = Some (name, zs) →
       ∃ arr, written d !! (i + 1) = Some arr ∧
              rasterize (zip (geometry gdf) zs)
                        (width (profile d), height (profile d))
                        (transform (profile d)) (nodata (profile d)) true
              = Ok arr).
Proof.
  intros Hfile Hwf Hok.
  destruct (convert_csv_returns _ _ _ _ Hfile Hok)
    as (gdf & b0 & b1 & b2 & b3 & w & h & d & Hgdf & Hgrid & Hout & Hp & Hbands
        & Hrest & _).
  destruct (to_gdf_inv _ _ _ Hgdf) as (names & xs & ys & Hnames & _ & _ & Hframe).
  destruct (to_gdf_count _ _ _ Hwf Hgdf) as [Hwf' Hcount].
  exists names, gdf, d. rewrite Hp. simpl.
  split; [done|]. split; [done|]. split; [by rewrite Hframe|].
  split; [done|]. split; [done|]. split; [done|]. split; [done|]. split; [done|].
  split.
  - intros k. split.
    + intros Hk. destruct (decide (k = 0 ∨ length (columns (frame gdf)) < k)%nat)
        as [Hout'|Hin]; [|lia].
      rewrite (Hrest k Hout') in Hk. by destruct Hk.
    + intros [Hk1 Hk2].
      destruct (lookup_lt_is_Some_2 (columns (frame gdf)) (k - 1)) as [c Hc]; [lia|].
      destruct (Hbands _ _ Hc) as (zs & arr & _ & _ & Hb).
      replace (k - 1 + 1) with k in Hb by lia. eauto.
  - intros i name zs Hi.
    assert (Hc : columns (frame gdf) !! i = Some name).
    { by rewrite lookup_columns, Hi. }
    destruct (Hbands _ _ Hc) as (zs' & arr & Hzs & Harr & Hb).
    rewrite (getitem_lookup _ _ _ _ Hwf' Hi) in Hzs. injection Hzs as <-.
    eauto.
Qed.

Lemma C8_output_raster_witness :
  ∃ d, fs (snd (@convert_csv Sample.externals "data/survey.CSV" "data/survey.tif"
                             Sample.start)) !! "data/survey.tif"
       = Some (TifFile d) ∧
       count (profile d) = 2 ∧ dtype (profile d) = "float32" ∧
       nodata (profile d) = (-9999.0)%float ∧ crs (profile d) = "EPSG:4326" ∧
       is_Some (written d !! 1) ∧ is_Some (written d !! 2) ∧ written d !! 3 = None.
Proof.
  destruct (C8_output_raster (H := Sample.externals)
              "data/survey.CSV" "data/survey.tif" Sample.start Sample.survey)
    as (names & gdf & d & _ & _ & _ & Hd & Hcount & Hdtype & Hnodata & Hcrs & Hdom & _).
  - vm_compute. reflexivity.
  - apply (bool_decide_unpack _). vm_compute. exact I.
  - vm_compute. reflexivity.
  - exists d. rewrite Hcount in Hdom. simpl in Hcount, Hdom.
    split; [exact Hd|]. split; [exact Hcount|]. split; [exact Hdtype|].
    split; [exact Hnodata|]. split; [exact Hcrs|].
    split; [apply Hdom; lia|]. split; [apply Hdom; lia|].
    apply eq_None_not_Some. intros Hs. apply Hdom in Hs. lia.
Defined.

(** ** Grids without cells *)

Section Refused.
Context `{Externals}.

Lemma cleared_makes_no_file path st :
  makes_no_file path st {| self := self st; fs := cleared path (fs st) |}.
Proof.
  unfold makes_no_file, cleared. destruct st as [this f]. simpl.
  destruct (f !! path) as [old|]; [|by left].
  destruct (unlinks old); by auto.
Qed.

Lemma makes_no_file_absent path st st' :
  makes_no_file path st st' → fs st !! path = None → st' = st.
Proof.
  intros [-> | ->] Hnone; [done|]. destruct st as [this f]. simpl in *.
  by rewrite delete_id.
Qed.

(** A grid without a cell, or a table without an attribute column:
    [rasterio.open] raises, and [convert_csv] with it. *)
Lemma convert_csv_refused input output st df gdf bbox w h :
  fs st !! input = Some (CsvFile df) →
  to_gdf (crs_code (self st)) df = Ok gdf →
  grid_sizer (resolution (self st)) gdf = Ok (bbox, (w, h)) →
  (w <= 0 ∨ h <= 0)%Z ∨ columns (frame gdf) = [] →
  convert_csv input output st
  = (Raise RasterioIOError, {| self := self st; fs := cleared output (fs st) |}).
Proof.
  intros Hfile Hgdf Hgrid Hzero. rewrite (convert_csv_unfold _ _ _ _ Hfile).
  rewrite Hgdf, Hgrid. destruct bbox as [[[b0 b1] b2] b3]. cbv zeta.
  destruct (refused _) eqn:Hrefused; [done|].
  apply refused_false in Hrefused. simpl in Hrefused.
  destruct Hzero as [Hzero | Hnil]; [lia|]. rewrite Hnil in Hrefused.
  simpl in Hrefused. lia.
Qed.

(** Every array that a returned conversion wrote is a rasterization on the
    grid of the profile. *)
Lemma convert_csv_band input output st df d k arr :
  fs st !! input = Some (CsvFile df) →
  fst (convert_csv input output st) = Ok tt →
  fs (snd (convert_csv input output st)) !! output = Some (TifFile d) →
  written d !! k = Some arr →
  ∃ shapes,
    rasterize shapes (width (profile d), height (profile d))
              (transform (profile d)) (nodata (profile d)) true = Ok arr.
Proof.
  intros Hfile Hok Hd Hk.
  destruct (convert_csv_returns _ _ _ _ Hfile Hok)
    as (gdf & b0 & b1 & b2 & b3 & w & h & d' & _ & _ & Hd' & Hprofile
        & Hbands & Hrest & _).
  rewrite Hd in Hd'. injection Hd' as <-. rewrite Hprofile. simpl.
  destruct (decide (k = 0 ∨ length (columns (frame gdf)) < k)%nat) as [Hout|Hin].
  { rewrite (Hrest k Hout) in Hk. done. }
  destruct (lookup_lt_is_Some_2 (columns (frame gdf)) (k - 1)) as [c Hc]; [lia|].
  destruct (Hbands _ _ Hc) as (zs & arr' & _ & Harr & Hb).
  replace (k - 1 + 1) with k in Hb by lia.
  rewrite Hk in Hb. injection Hb as <-. eauto.
Qed.

End Refused.

(** The difference of a float and itself is zero, or NaN when the float is
    not finite; zero over anything is zero or NaN. *)
Lemma sub_self_spec (x : float) :
  Prim2SF (x - x) = S754_zero false ∨ Prim2SF (x - x) = S754_nan.
Proof.
  rewrite sub_spec. destruct (Prim2SF x) as [s|s| |s m e].
  - destruct s; by left.
  - destruct s; by right.
  - by right.
  - left. unfold SF64sub, SFsub. by rewrite Z.sub_diag.
Qed.

Lemma py_int_zero_extent (x u : float) :
  py_int ((x - x) / u) = Ok 0%Z ∨
  py_int ((x - x) / u)
  = Raise (ValueError (Literal "cannot convert float NaN to integer")).
Proof.
  unfold py_int. rewrite div_spec.
  destruct (sub_self_spec x) as [-> | ->].
  - destruct (Prim2SF u) as [s|s| |s m e]; simpl; auto.
  - right. by destruct (Prim2SF u).
Qed.

Lemma grid_sizer_single_point `{Externals} resolution gdf p :
  geometry gdf = [p] →
  grid_sizer resolution gdf
  = Ok ((Point.x p, Point.y p, Point.x p, Point.y p), (0, 0)%Z) ∨
  grid_sizer resolution gdf
  = Raise (ValueError (Literal "cannot convert float NaN to integer")).
Proof.
  intros Hgeom. unfold grid_sizer, total_bounds, geometry0. rewrite Hgeom. simpl.
  match goal with |- context [py_int ((Point.x p - Point.x p) / ?u)] =>
    destruct (py_int_zero_extent (Point.x p) u) as [-> | ->] end; simpl; [|by right].
  match goal with |- context [py_int ((Point.y p - Point.y p) / ?u)] =>
    destruct (py_int_zero_extent (Point.y p) u) as [-> | ->] end; simpl; auto.
Qed.

Lemma single_row_geometry crs df gdf :
  Forall (λ c, length (snd c) = 1) df → to_gdf crs df = Ok gdf →
  ∃ p, geometry gdf = [p].
Proof.
  intros Hrows (names & xs & ys & _ & Hxs & Hys & ->)%to_gdf_inv. simpl.
  apply getitem_in in Hxs, Hys. rewrite Forall_forall in Hrows.
  pose proof (Hrows _ Hxs) as Hx. pose proof (Hrows _ Hys) as Hy. simpl in Hx, Hy.
  destruct xs as [|x [|]]; try done. destruct ys as [|y [|]]; try done.
  by eexists.
Qed.

(** C1, as the code has it: a table of one row has a bounding box of no
    extent, so both cell counts are [int] of zero over the degrees per
    cell.  With its axes resolved, its conversion never returns and makes
    no raster: either [int] is given a NaN (a coordinate that is not
    finite, or no degrees per cell) and raises, or the grid is 0 cells wide
    and 0 cells high, [rasterio.open] refuses it, and its error ends the
    call.  No file is made or changed; what was at the output path is still
    there or is gone. *)
Theorem C1_single_point_makes_no_raster `{Externals} (input output : string)
    (st : State) (df : DataFrame) (names : latlng_names) :
  fs st !! input = Some (CsvFile df) →
  Forall (λ c, length (snd c) = 1) df →
  get_latlon_names (columns df) = Ok names →
  ∃ gdf p,
    to_gdf (crs_code (self st)) df = Ok gdf ∧ geometry gdf = [p] ∧
    (grid_sizer (resolution (self st)) gdf
     = Ok ((Point.x p, Point.y p, Point.x p, Point.y p), (0, 0)%Z) ∧
     fst (convert_csv input output st) = Raise RasterioIOError
     ∨
     grid_sizer (resolution (self st)) gdf
     = Raise (ValueError (Literal "cannot convert float NaN to integer")) ∧
     convert_csv input output st
     = (Raise (ValueError (Literal "cannot convert float NaN to integer")), st)) ∧
    makes_no_file output st (snd (convert_csv input output st)).
Proof.
  intros Hfile Hrows Hnames.
  destruct (to_gdf_resolved (crs_code (self st)) _ _ Hnames) as [gdf Hgdf].
  destruct (single_row_geometry _ _ _ Hrows Hgdf) as [p Hp].
  exists gdf, p. split; [done|]. split; [done|].
  destruct (grid_sizer_single_point (resolution (self st)) gdf p Hp) as [Hgrid|Hgrid].
  - rewrite (convert_csv_refused input output st df gdf _ 0 0 Hfile Hgdf Hgrid)
      by (left; lia).
    split; [by left|]. apply cleared_makes_no_file.
  - rewrite (convert_csv_unfold _ _ _ _ Hfile), Hgdf, Hgrid.
    split; [by right|]. by left.
Qed.

Lemma C1_single_point_makes_no_raster_witness :
  let outcome := @convert_csv Sample.externals "data/one.csv" "data/one.tif"
                              Sample.start in
  ∃ gdf p,
    to_gdf 4326 Sample.one_point = Ok gdf ∧ geometry gdf = [p] ∧
    (@grid_sizer Sample.externals 1000.0%float gdf
     = Ok ((Point.x p, Point.y p, Point.x p, Point.y p), (0, 0)%Z) ∧
     fst outcome = Raise RasterioIOError
     ∨
     @grid_sizer Sample.externals 1000.0%float gdf
     = Raise (ValueError (Literal "cannot convert float NaN to integer")) ∧
     outcome
     = (Raise (ValueError (Literal "cannot convert float NaN to integer")),
        Sample.start)) ∧
    makes_no_file "data/one.tif" Sample.start (snd outcome).
Proof.
  apply (C1_single_point_makes_no_raster (H := Sample.externals)
           "data/one.csv" "data/one.tif" Sample.start Sample.one_point
           {| lat := (0, "lat"); lng := (2, "lng") |}).
  - vm_compute. reflexivity.
  - repeat constructor.
  - reflexivity.
Defined.

(** C1 as stated fails: the table of one point and two attribute columns
    has a grid of 0 by 0 cells; its conversion raises the error of
    [rasterio.open], and no raster is at the output path afterwards, with
    two bands or any. *)
Lemma C1_one_point_makes_no_raster :
  let outcome := @convert_csv Sample.externals "data/one.csv" "data/one.tif"
                              Sample.start in
  length Sample.one_point = 4 ∧
  Forall (λ c, length (snd c) = 1) Sample.one_point ∧
  (let? gdf := to_gdf 4326 Sample.one_point in
   @grid_sizer Sample.externals 1000.0%float gdf)
  = Ok ((139.0, 35.0, 139.0, 35.0)%float, (0, 0)%Z) ∧
  outcome = (Raise RasterioIOError, Sample.start) ∧
  fs (snd outcome) !! "data/one.tif" = None.
Proof.
  split; [reflexivity|]. split; [repeat constructor|].
  split; [vm_compute; reflexivity|]. split; vm_compute; reflexivity.
Qed.

(** ** Degenerate grids *)

(** C2: a table at an existing path whose grid comes out with a width or a
    height of zero is not converted to an empty raster.  The conversion
    fails: [rasterio.open] refuses the grid and its [RasterioIOError], an
    [OSError] as the input errors of [execute_one] are, ends [convert_csv],
    and [execute_one] with it when the path is a ".csv" one.  No file is
    made or changed; what was at the output path is still there or is
    gone. *)
Theorem C2_degenerate_grid_is_refused `{Externals}
    (input_file_name output_file_name : string)
    (st : State) (df : DataFrame) (gdf : GeoDataFrame)
    (bbox : float * float * float * float) (w h : Z) :
  fs st !! input_file_name = Some (CsvFile df) →
  to_gdf (crs_code (self st)) df = Ok gdf →
  grid_sizer (resolution (self st)) gdf = Ok (bbox, (w, h)) →
  (w = 0 ∨ h = 0)%Z →
  is_oserror RasterioIOError = true ∧
  fst (convert_csv input_file_name output_file_name st) = Raise RasterioIOError ∧
  makes_no_file output_file_name st
    (snd (convert_csv input_file_name output_file_name st)) ∧
  (Str.lower (snd (os_path.splitext (os_path.basename input_file_name)))
   = ".csv" →
   fst (execute_one input_file_name st) = Raise RasterioIOError ∧
   makes_no_file (out_path input_file_name) st
     (snd (execute_one input_file_name st))).
Proof.
  intros Hfile Hgdf Hgrid Hzero.
  assert (Hconv : ∀ output,
    convert_csv input_file_name output st
    = (Raise RasterioIOError,
       {| self := self st; fs := cleared output (fs st) |})).
  { intros output. eapply convert_csv_refused; eauto. left. lia. }
  split; [done|]. split; [by rewrite Hconv|]. split.
  - rewrite Hconv. apply cleared_makes_no_file.
  - intros Hsuffix. rewrite execute_one_unfold. cbv zeta.
    rewrite Hfile, bool_decide_true by eauto. rewrite Hsuffix. simpl.
    fold (out_path input_file_name). rewrite Hconv.
    split; [done|]. apply cleared_makes_no_file.
Qed.

Lemma C2_degenerate_grid_is_refused_witness :
  let converted := @convert_csv Sample.externals "data/near.csv" "data/near.tif"
                                Sample.start in
  let executed := @execute_one Sample.externals "data/near.csv" Sample.start in
  is_oserror RasterioIOError = true ∧
  fst converted = Raise RasterioIOError ∧
  makes_no_file "data/near.tif" Sample.start (snd converted) ∧
  (Str.lower (snd (os_path.splitext (os_path.basename "data/near.csv")))
   = ".csv" →
   fst executed = Raise RasterioIOError ∧
   makes_no_file (out_path "data/near.csv") Sample.start (snd executed)).
Proof.
  eapply (C2_degenerate_grid_is_refused (H := Sample.externals)
            "data/near.csv" "data/near.tif" Sample.start Sample.two_near
            _ _ 0 0).
  - vm_compute. reflexivity.
  - vm_compute. reflexivity.
  - vm_compute. reflexivity.
  - left. reflexivity.
Defined.

(** Two points some fifty metres apart at a resolution of 1000 metres: the
    grid is 0 by 0 cells, [execute_one] ends in the error of [rasterio.open]
    and the files are as they were. *)
Example execute_one_two_near :
  (let? gdf := to_gdf 4326 Sample.two_near in
   @grid_sizer Sample.externals 1000.0%float gdf)
  = Ok ((139.0, 35.0, 139.0005, 35.0005)%float, (0, 0)%Z) ∧
  @execute_one Sample.externals "data/near.csv" Sample.start
  = (Raise RasterioIOError, Sample.start).
Proof. split; vm_compute; reflexivity. Qed.

(** ** Burning points into a band *)

Section Burn.
Context `{Externals}.

Lemma cell_burn_hit t out p v r c :
  cell_of t p = Some (r, c) → is_Some (cell out r c) →
  cell (burn t out (p, v)) r c = Some v.
Proof.
  unfold burn, cell. cbn beta iota. intros -> [x Hx].
  rewrite list_lookup_alter_eq.
  destruct (out !! r) as [row|]; simpl in *; [|done].
  apply list_lookup_insert_eq. by eapply lookup_lt_Some.
Qed.

Lemma cell_burn_miss t out p v r c :
  cell_of t p ≠ Some (r, c) → cell (burn t out (p, v)) r c = cell out r c.
Proof.
  unfold burn, cell. cbn beta iota. intros Hne.
  destruct (cell_of t p) as [[r' c']|]; [|done].
  destruct (decide (r' = r)) as [->|Hr].
  - rewrite list_lookup_alter_eq.
    destruct (out !! r) as [row|]; simpl; [|done].
    apply list_lookup_insert_ne. congruence.
  - by rewrite list_lookup_alter_ne.
Qed.

Lemma cell_burn_is_Some t out s r c :
  is_Some (cell (burn t out s) r c) ↔ is_Some (cell out r c).
Proof.
  destruct s as [p v].
  destruct (decide (cell_of t p = Some (r, c))) as [Hhit|Hmiss].
  - split; [|intros Hc; rewrite cell_burn_hit; eauto].
    unfold burn, cell. cbn beta iota. rewrite Hhit, list_lookup_alter_eq.
    destruct (out !! r) as [row|]; simpl; [|done].
    intros [x Hx]. apply lookup_lt_Some in Hx. rewrite length_insert in Hx.
    by apply lookup_lt_is_Some_2.
  - by rewrite cell_burn_miss.
Qed.

Lemma cell_fold_burn_is_Some t shapes out r c :
  is_Some (cell (fold_left (burn t) shapes out) r c) ↔ is_Some (cell out r c).
Proof.
  revert out. induction shapes as [|s shapes IH]; intros out; simpl; [done|].
  by rewrite IH, cell_burn_is_Some.
Qed.

Lemma cell_fold_burn_untouched t shapes out r c :
  (∀ k p v, shapes !! k = Some (p, v) → cell_of t p ≠ Some (r, c)) →
  cell (fold_left (burn t) shapes out) r c = cell out r c.
Proof.
  revert out. induction shapes as [|[p v] shapes IH]; intros out Hmiss; [done|].
  simpl. rewrite IH by (intros k; apply (Hmiss (S k))).
  apply cell_burn_miss, (Hmiss 0 p v). done.
Qed.

(** Last write wins: a cell of the array holds the value of the last shape
    that falls in it. *)
Lemma cell_fold_burn_last t shapes out j p v r c :
  shapes !! j = Some (p, v) → cell_of t p = Some (r, c) →
  (∀ k p' v', j < k → shapes !! k = Some (p', v') → cell_of t p' ≠ Some (r, c)) →
  is_Some (cell out r c) →
  cell (fold_left (burn t) shapes out) r c = Some v.
Proof.
  revert j out. induction shapes as [|s shapes IH]; intros j out Hj Hcell Hlast Hin;
    [done|].
  destruct j as [|j]; simpl in *.
  - injection Hj as ->.
    rewrite cell_fold_burn_untouched; [by apply cell_burn_hit|].
    intros k p' v' Hk. apply (Hlast (S k) p' v'); [lia | done].
  - apply (IH j); [done..| |by apply cell_burn_is_Some].
    intros k p' v' Hlt Hk. apply (Hlast (S k) p' v'); [lia | done].
Qed.

(** [out_shape] is read as (rows, columns) and is given [nxy], which is
    (width, height): the array of a band has as many rows as the grid is
    wide, and rows as long as the grid is high. *)
Lemma burn_shape t out s : map length (burn t out s) = map length out.
Proof.
  unfold burn. destruct s as [p v]. destruct (cell_of t p) as [[r c]|]; [|done].
  revert r. induction out as [|row out IH]; intros [|r]; simpl; [done..| |].
  - by rewrite length_insert.
  - f_equal. apply IH.
Qed.

Lemma rasterize_shape shapes w h t fill touched arr :
  rasterize shapes (w, h) t fill touched = Ok arr →
  map length arr = replicate (Z.to_nat w) (Z.to_nat h).
Proof.
  unfold rasterize. case_match; [done|]. intros [= <-].
  assert (Hfull : map length (full (w, h) fill)
                  = replicate (Z.to_nat w) (Z.to_nat h)).
  { unfold full. simpl. induction (Z.to_nat w) as [|n IH]; simpl; [done|].
    by rewrite IH, length_replicate. }
  revert Hfull. generalize (full (w, h) fill).
  induction shapes as [|s shapes IH]; intros out Hout; simpl; [done|].
  apply IH. by rewrite burn_shape.
Qed.

End Burn.

(** Inside the array that is handed to [write], the later point wins: of
    two points of a table that fall at one row and column, the later one in
    row order being the last of the table there, it is the later one whose
    value the array holds at that row and column, provided the array has
    such a cell. *)
Lemma later_point_wins_inside_array `{Externals} (input output : string)
    (st : State) (df : DataFrame) (gdf : GeoDataFrame) (d : Dataset)
    (a : nat) (name : string) (zs : list float) (arr : Band)
    (i j : nat) (p_i p_j : Point.t) (v_j : float) (r c : nat) :
  fs st !! input = Some (CsvFile df) →
  wf_frame df →
  fst (convert_csv input output st) = Ok tt →
  to_gdf (crs_code (self st)) df = Ok gdf →
  fs (snd (convert_csv input output st)) !! output = Some (TifFile d) →
  frame gdf !! a = Some (name, zs) →
  written d !! (a + 1) = Some arr →
  (i < j)%nat →
  geometry gdf !! i = Some p_i → geometry gdf !! j = Some p_j →
  zs !! j = Some v_j →
  cell_of (transform (profile d)) p_i = Some (r, c) →
  cell_of (transform (profile d)) p_j = Some (r, c) →
  (∀ k p_k, (j < k)%nat → geometry gdf !! k = Some p_k →
            cell_of (transform (profile d)) p_k ≠ Some (r, c)) →
  is_Some (cell arr r c) →
  cell arr r c = Some v_j.
Proof.
  intros Hfile Hwf Hok Hgdf Hd Ha Harr Hij Hi Hj Hv Hci Hcj Hlast Hin.
  destruct (convert_csv_returns _ _ _ _ Hfile Hok)
    as (gdf' & b0 & b1 & b2 & b3 & w & h & d' & Hgdf' & _ & Hd' & Hprofile & Hbands & _).
  rewrite Hgdf in Hgdf'. injection Hgdf' as <-.
  rewrite Hd in Hd'. injection Hd' as <-.
  rewrite Hprofile in Hcj, Hlast. simpl in Hcj, Hlast.
  destruct (to_gdf_count _ _ _ Hwf Hgdf) as [Hwf' _].
  assert (Hc : columns (frame gdf) !! a = Some name) by by rewrite lookup_columns, Ha.
  destruct (Hbands _ _ Hc) as (zs' & arr' & Hzs & Hras & Hb).
  rewrite (getitem_lookup _ _ _ _ Hwf' Ha) in Hzs. injection Hzs as <-.
  rewrite Harr in Hb. injection Hb as <-.
  unfold rasterize in Hras. case_match; [done|]. injection Hras as <-.
  apply cell_fold_burn_is_Some in Hin as Hin'.
  eapply cell_fold_burn_last; [|exact Hcj| |exact Hin'].
  - apply lookup_zip_with_Some. eauto.
  - intros k p' v' Hlt [x [y [[= -> ->] [Hx _]]]]%lookup_zip_with_Some. eauto.
Qed.

(** The second and the third point of the survey fall at row 2, column 2 of
    a raster 6 cells wide and 4 high; the array of the first band, of 6
    rows and 4 columns, has a cell there, and it holds the value of the
    third point. *)
Example survey_later_point_wins :
  ∃ d arr,
    fs (snd (@convert_csv Sample.externals "data/survey.CSV" "data/survey.tif"
                          Sample.start)) !! "data/survey.tif" = Some (TifFile d) ∧
    written d !! 1 = Some arr ∧
    @cell_of Sample.externals (transform (profile d)) (Point.make 139.025 35.015)
    = Some (2, 2) ∧
    @cell_of Sample.externals (transform (profile d)) (Point.make 139.02501 35.015)
    = Some (2, 2) ∧
    cell arr 2 2 = Some 30.0%float.
Proof. eexists _, _. repeat split; vm_compute; reflexivity. Qed.

(** C7 fails on a raster that is wider than it is high.  [out_shape] is
    given (width, height) where rows come first, so the array that is
    handed to [write] has [width] rows and [height] columns, and a point
    whose column in the raster is [height] or more has no cell in it.  The
    second and the third point of the strip both fall at row 0, column 16
    of a raster 22 cells wide and 2 high; the array of the band, of 22 rows
    and 2 columns, has no cell there, and the value of the third point, 30,
    is nowhere in it: the one cell that is not nodata holds the 10 of the
    first point. *)
Theorem C7_later_point_is_lost :
  let outcome := @convert_csv Sample.externals "data/strip.csv" "data/strip.tif"
                              Sample.start in
  fst outcome = Ok tt ∧
  ∃ d arr,
    fs (snd outcome) !! "data/strip.tif" = Some (TifFile d) ∧
    width (profile d) = 22%Z ∧ height (profile d) = 2%Z ∧
    @cell_of Sample.externals (transform (profile d)) (Point.make 139.15 35.019)
    = Some (0, 16) ∧
    @cell_of Sample.externals (transform (profile d)) (Point.make 139.1501 35.0191)
    = Some (0, 16) ∧
    written d !! 1 = Some arr ∧
    length arr = 22 ∧ Forall (λ row, length row = 2) arr ∧
    cell arr 0 16 = None ∧
    other_than (nodata (profile d)) arr = [10.0%float].
Proof.
  split; [vm_compute; reflexivity|]. eexists _, _.
  split; [vm_compute; reflexivity|].
  repeat split; try (vm_compute; reflexivity).
  repeat constructor.
Qed.

(** * Further properties of the code *)

(** ** The resolver, over all headers *)

(** X1: [get_latlon_names] returns exactly for the headers that have an alias
    of each axis. *)
Theorem resolver_returns_iff_both_axes (cols : list string) :
  (∃ r, get_latlon_names cols = Ok r) ↔
  existsb is_lat cols = true ∧ existsb is_lng cols = true.
Proof.
  unfold get_latlon_names. destruct (scan_last_match cols) as [Hlat Hlng].
  destruct (slot_lat (scan cols)) as [[i x]|].
  - destruct Hlat as (Hi & Hx & _).
    assert (existsb is_lat cols = true) as ->.
    { apply existsb_exists. exists x. split; [|done].
      apply list_elem_of_In. by eapply list_elem_of_lookup_2. }
    destruct (slot_lng (scan cols)) as [[j y]|].
    + destruct Hlng as (Hj & Hy & _).
      assert (existsb is_lng cols = true) as ->.
      { apply existsb_exists. exists y. split; [|done].
        apply list_elem_of_In. by eapply list_elem_of_lookup_2. }
      split; [done | eauto].
    + apply last_match_none_existsb in Hlng. rewrite Hlng.
      split; [by intros [? ?] | by intros [_ ?]].
  - apply last_match_none_existsb in Hlat. rewrite Hlat.
    split; [by intros [? ?] | by intros [? _]].
Qed.

(** X2: A header without a latitude alias raises the error that names Latitude,
    whether or not it has a longitude alias. *)
Theorem resolver_missing_latitude (cols : list string) :
  existsb is_lat cols = false →
  get_latlon_names cols
  = Raise (KeyError (Formatted "Latitude is not found! {}" cols)).
Proof.
  intros Hnone. unfold get_latlon_names.
  destruct (scan_last_match cols) as [Hlat _].
  apply last_match_none_existsb in Hnone.
  by rewrite (last_match_unique _ _ _ _ Hlat Hnone).
Qed.

Lemma resolver_missing_latitude_witness :
  get_latlon_names ["id"; "Longitude"; "val"]
  = Raise (KeyError (Formatted "Latitude is not found! {}"
                               ["id"; "Longitude"; "val"])).
Proof. exact (resolver_missing_latitude ["id"; "Longitude"; "val"] eq_refl). Defined.

(** X3: The two columns that the resolver returns are two different columns of
    the header: both indexes are in range, and neither the indexes nor the
    names are equal. *)
Theorem resolver_returns_two_columns (cols : list string) (r : latlng_names) :
  get_latlon_names cols = Ok r →
  (fst (lat r) < length cols)%nat ∧ (fst (lng r) < length cols)%nat ∧
  fst (lat r) ≠ fst (lng r) ∧ snd (lat r) ≠ snd (lng r).
Proof.
  intros Hr. destruct (resolved_columns _ _ Hr) as (_ & _ & Hne).
  unfold get_latlon_names in Hr. destruct (scan_last_match cols) as [Hlat Hlng].
  destruct (slot_lat (scan cols)) as [[i x]|]; [|done].
  destruct (slot_lng (scan cols)) as [[j y]|]; [|done].
  injection Hr as <-. simpl in *.
  destruct Hlat as (Hi & _), Hlng as (Hj & _).
  split; [by eapply lookup_lt_Some|]. split; [by eapply lookup_lt_Some|].
  split; [|done]. intros ->. congruence.
Qed.

Lemma resolver_returns_two_columns_witness :
  (1 < 3)%nat ∧ (0 < 3)%nat ∧ 1 ≠ 0 ∧ "LAT" ≠ "lng".
Proof.
  exact (resolver_returns_two_columns ["lng"; "LAT"; "val"]
           {| lat := (1, "LAT"); lng := (0, "lng") |} eq_refl).
Defined.

(** X4: The match is blind to case: two headers that agree once put to lower
    case resolve to the same two indexes, or both fail. *)
Theorem resolver_case_insensitive (cols cols' : list string) (r : latlng_names) :
  map Str.lower cols = map Str.lower cols' →
  get_latlon_names cols = Ok r →
  ∃ r', get_latlon_names cols' = Ok r' ∧
        fst (lat r') = fst (lat r) ∧ fst (lng r') = fst (lng r).
Proof.
  intros Hlow Hr.
  assert (Hsame : ∀ (P : string → bool), (∀ x y, Str.lower x = Str.lower y → P x = P y) →
            ∀ i x, last_match P cols (Some (i, x)) →
                   ∃ x', last_match P cols' (Some (i, x'))).
  { intros P HP i x (Hi & Hx & Hlast).
    assert (Hlook : ∀ k, Str.lower <$> cols !! k = Str.lower <$> cols' !! k).
    { intros k. rewrite <-!list_lookup_fmap.
      change (map Str.lower cols !! k = map Str.lower cols' !! k). by rewrite Hlow. }
    pose proof (Hlook i) as Hli. rewrite Hi in Hli. simpl in Hli.
    destruct (cols' !! i) as [x'|] eqn:Hi'; [|done]. injection Hli as Hli.
    exists x'. repeat split; [done|by rewrite <-(HP _ _ Hli)|].
    intros k z' Hk Hz'. pose proof (Hlook k) as Hlk. rewrite Hz' in Hlk. simpl in Hlk.
    destruct (cols !! k) as [z|] eqn:Hz; [|done]. injection Hlk as Hlk.
    rewrite <-(HP _ _ Hlk). by eapply Hlast. }
  unfold get_latlon_names in Hr |- *.
  destruct (scan_last_match cols) as [Hlat Hlng].
  destruct (scan_last_match cols') as [Hlat' Hlng'].
  destruct (slot_lat (scan cols)) as [[i x]|]; [|done].
  destruct (slot_lng (scan cols)) as [[j y]|]; [|done].
  injection Hr as <-. simpl.
  destruct (Hsame is_lat) with (i := i) (x := x) as [x' Hx'];
    [by intros ? ? Heq; unfold is_lat; rewrite Heq | done |].
  destruct (Hsame is_lng) with (i := j) (x := y) as [y' Hy'];
    [by intros ? ? Heq; unfold is_lng; rewrite Heq | done |].
  rewrite (last_match_unique _ _ _ _ Hlat' Hx').
  rewrite (last_match_unique _ _ _ _ Hlng' Hy'). eauto.
Qed.

Lemma resolver_case_insensitive_witness :
  ∃ r', get_latlon_names ["VAL"; "LATITUDE"; "Lng"] = Ok r' ∧
        fst (lat r') = 1 ∧ fst (lng r') = 2.
Proof.
  exact (resolver_case_insensitive ["val"; "Latitude"; "LNG"]
           ["VAL"; "LATITUDE"; "Lng"]
           {| lat := (1, "Latitude"); lng := (2, "LNG") |} eq_refl eq_refl).
Defined.

(** ** What a conversion does to the files *)

Lemma keeps_files_bind {A B} keep (m : M A) (k : A → M B) :
  keeps_files keep m → (∀ a, keeps_files keep (k a)) → keeps_files keep (bind m k).
Proof.
  intros Hm Hk st q Hq. unfold bind. specialize (Hm st q Hq).
  destruct (m st) as [[a|e] st']; simpl in *; [|done].
  by rewrite Hk.
Qed.

Lemma keeps_files_pure {A} keep (m : M A) :
  (∀ st, snd (m st) = st) → keeps_files keep m.
Proof. intros Hm st q _. by rewrite Hm. Qed.

Lemma keeps_files_read_csv keep path : keeps_files keep (read_csv path).
Proof.
  apply keeps_files_pure. intros st. unfold read_csv, bind, get_fs. simpl.
  by repeat case_match.
Qed.

Lemma keeps_files_rasterio_open `{Externals} path p :
  keeps_files (λ q, q ≠ path) (rasterio_open path p).
Proof.
  intros st q Hq. unfold rasterio_open, bind, get_fs, put_fs, raise. simpl.
  destruct (refused p); simpl; [|by apply lookup_insert_ne].
  unfold cleared. destruct (fs st !! path) as [old|]; [|done].
  destruct (unlinks old); [by apply lookup_delete_ne | done].
Qed.

(** A second refused [open] finds nothing more to remove. *)
Lemma cleared_idemp `{Externals} path f :
  cleared path (cleared path f) = cleared path f.
Proof.
  unfold cleared. destruct (f !! path) as [old|] eqn:Hold.
  - destruct (unlinks old) eqn:Hunlinks.
    + by rewrite lookup_delete_eq.
    + by rewrite Hold, Hunlinks.
  - by rewrite Hold.
Qed.

Lemma keeps_files_dst_write path arr i :
  keeps_files (λ q, q ≠ path) (dst_write path arr i).
Proof.
  intros st q Hq. unfold dst_write, bind, get_fs. simpl.
  destruct (fs st !! path) as [[| |]|]; simpl; try done.
  by apply lookup_insert_ne.
Qed.

Lemma keeps_raster_bind {A B} path (m : M A) (k : A → M B) :
  keeps_raster path m → (∀ a, keeps_raster path (k a)) → keeps_raster path (bind m k).
Proof.
  intros Hm Hk st d Hd. unfold bind.
  destruct (Hm st d Hd) as (d1 & Hself & Hfs & Hp).
  destruct (m st) as [[a|e] st1]; simpl in *; [|by eauto].
  destruct (Hk a st1 d1) as (d2 & Hself2 & Hfs2 & Hp2).
  { rewrite Hfs. apply lookup_insert_eq. }
  exists d2. split; [congruence|]. split; [|congruence].
  by rewrite Hfs2, Hfs, insert_insert_eq.
Qed.

Lemma keeps_raster_pure {A} path (m : M A) :
  (∀ st, snd (m st) = st) → keeps_raster path m.
Proof.
  intros Hm st d Hd. rewrite Hm. exists d. by rewrite insert_id.
Qed.

Lemma keeps_raster_dst_write path arr i : keeps_raster path (dst_write path arr i).
Proof.
  intros st d Hd. unfold dst_write, bind, get_fs. simpl. rewrite Hd. simpl.
  by eexists.
Qed.

Section Files.
Context `{Externals}.

Lemma keeps_files_write_bands out gdf nxy t nd cols :
  keeps_files (λ q, q ≠ out) (write_bands out gdf nxy t nd cols).
Proof.
  induction cols as [|[i z_name] cols IH]; simpl; [by apply keeps_files_pure|].
  apply keeps_files_bind; [by apply keeps_files_pure | intros zs].
  apply keeps_files_bind; [by apply keeps_files_pure | intros arr].
  apply keeps_files_bind; [apply keeps_files_dst_write | intros _; exact IH].
Qed.

Lemma keeps_raster_write_bands out gdf nxy t nd cols :
  keeps_raster out (write_bands out gdf nxy t nd cols).
Proof.
  induction cols as [|[i z_name] cols IH]; simpl; [by apply keeps_raster_pure|].
  apply keeps_raster_bind; [by apply keeps_raster_pure | intros zs].
  apply keeps_raster_bind; [by apply keeps_raster_pure | intros arr].
  apply keeps_raster_bind; [apply keeps_raster_dst_write | intros _; exact IH].
Qed.

Lemma keeps_files_convert_csv input output :
  keeps_files (λ q, q ≠ output) (convert_csv input output).
Proof.
  unfold convert_csv.
  apply keeps_files_bind; [apply keeps_files_read_csv | intros df].
  apply keeps_files_bind; [by apply keeps_files_pure | intros this].
  apply keeps_files_bind; [by apply keeps_files_pure | intros gdf].
  apply keeps_files_bind; [by apply keeps_files_pure | intros grid].
  destruct grid as [[[[b0 b1] b2] b3] nxy].
  apply keeps_files_bind; [apply keeps_files_rasterio_open | intros _].
  apply keeps_files_write_bands.
Qed.

(** [convert_csv] on a path that holds no table raises and changes
    nothing. *)
Lemma convert_csv_unreadable input output st :
  (∀ df, fs st !! input ≠ Some (CsvFile df)) →
  snd (convert_csv input output st) = st.
Proof.
  intros Hnone. unfold convert_csv, read_csv, bind, get_fs. simpl.
  destruct (fs st !! input) as [[df| |]|]; try done. by destruct (Hnone df).
Qed.

End Files.

(** X5: Whatever [convert_csv] does and however it ends, the only file it
    creates or changes is the one at [output_file_name]. *)
Theorem convert_csv_writes_output_only `{Externals}
    (input_file_name output_file_name path : string) (st : State) :
  path ≠ output_file_name →
  fs (snd (convert_csv input_file_name output_file_name st)) !! path
  = fs st !! path.
Proof. intros Hne. by apply keeps_files_convert_csv. Qed.

Lemma convert_csv_writes_output_only_witness :
  fs (snd (@convert_csv Sample.externals "data/survey.CSV" "data/survey.tif"
                        Sample.start)) !! "data/near.csv"
  = fs Sample.start !! "data/near.csv".
Proof.
  apply (convert_csv_writes_output_only (H := Sample.externals)).
  discriminate.
Defined.

(** X6: A table whose header does not resolve, or whose grid cannot be sized,
    makes [convert_csv] raise that error before the raster is opened: no
    file is created and the state is as it was. *)
Theorem convert_csv_fails_before_open `{Externals}
    (input_file_name output_file_name : string) (st : State)
    (df : DataFrame) (e : exn) :
  fs st !! input_file_name = Some (CsvFile df) →
  (let? gdf := to_gdf (crs_code (self st)) df in
   grid_sizer (resolution (self st)) gdf) = Raise e →
  convert_csv input_file_name output_file_name st = (Raise e, st).
Proof.
  intros Hfile Hraise. rewrite (convert_csv_unfold _ _ _ _ Hfile).
  destruct (to_gdf _ df) as [gdf|e']; simpl in Hraise; [|congruence].
  destruct (grid_sizer _ gdf) as [[[[[b0 b1] b2] b3] nxy]|e']; congruence.
Qed.

(** X7: A table with a header and no row: row 0 of the geometry is looked up
    and is not there, so [convert_csv] raises [KeyError] for the label 0 and
    writes nothing. *)
Theorem convert_csv_empty_table `{Externals}
    (input_file_name output_file_name : string) (st : State)
    (df : DataFrame) (names : latlng_names) :
  fs st !! input_file_name = Some (CsvFile df) →
  get_latlon_names (columns df) = Ok names →
  Forall (λ c, snd c = []) df →
  convert_csv input_file_name output_file_name st
  = (Raise (KeyError (Literal "0")), st).
Proof.
  intros Hfile Hnames Hrows. rewrite (convert_csv_unfold _ _ _ _ Hfile).
  destruct (to_gdf_resolved (crs_code (self st)) _ _ Hnames) as [gdf Hgdf].
  rewrite Hgdf.
  destruct (to_gdf_inv _ _ _ Hgdf) as (names' & xs & ys & _ & Hxs & _ & ->).
  apply getitem_in in Hxs. rewrite Forall_forall in Hrows.
  apply Hrows in Hxs. simpl in Hxs. subst xs. reflexivity.
Qed.

Lemma convert_csv_fails_before_open_witness :
  @convert_csv Sample.externals "t.csv" "t.tif"
    {| self := Sample.tool;
       fs := {[ "t.csv" := CsvFile [("lat", [35.0]); ("v", [2.0])]%float ]} |}
  = (Raise (KeyError (Formatted "Longitude is not found! {}" ["lat"; "v"])),
     {| self := Sample.tool;
        fs := {[ "t.csv" := CsvFile [("lat", [35.0]); ("v", [2.0])]%float ]} |}).
Proof.
  apply (convert_csv_fails_before_open (H := Sample.externals) "t.csv" "t.tif" _
           [("lat", [35.0]); ("v", [2.0])]%float).
  - vm_compute. reflexivity.
  - reflexivity.
Defined.

Lemma convert_csv_empty_table_witness :
  @convert_csv Sample.externals "e.csv" "e.tif"
    {| self := Sample.tool;
       fs := {[ "e.csv" := CsvFile [("lat", []); ("lng", []); ("v", [])] ]} |}
  = (Raise (KeyError (Literal "0")),
     {| self := Sample.tool;
        fs := {[ "e.csv" := CsvFile [("lat", []); ("lng", []); ("v", [])] ]} |}).
Proof.
  apply (convert_csv_empty_table (H := Sample.externals) "e.csv" "e.tif" _
           [("lat", []); ("lng", []); ("v", [])]
           {| lat := (0, "lat"); lng := (1, "lng") |}).
  - vm_compute. reflexivity.
  - reflexivity.
  - repeat constructor.
Defined.

(** X8: Converting again changes nothing: a second [convert_csv] of the same
    input to the same output, when the two paths differ, ends as the first
    did and leaves the state that the first left. *)
Theorem convert_csv_idempotent `{Externals}
    (input_file_name output_file_name : string) (st : State) :
  input_file_name ≠ output_file_name →
  convert_csv input_file_name output_file_name
    (snd (convert_csv input_file_name output_file_name st))
  = convert_csv input_file_name output_file_name st.
Proof.
  intros Hne.
  destruct (fs st !! input_file_name) as [[df| |]|] eqn:Hfile;
    try (rewrite (convert_csv_unreadable _ _ st); [done | by rewrite Hfile]).
  assert (Hagain : fs (snd (convert_csv input_file_name output_file_name st))
                     !! input_file_name = Some (CsvFile df)).
  { by rewrite keeps_files_convert_csv. }
  pose proof (keeps_self_convert_csv input_file_name output_file_name st) as Hself.
  rewrite (convert_csv_unfold _ _ _ _ Hagain), Hself. clear Hagain Hself.
  rewrite (convert_csv_unfold _ _ st _ Hfile).
  destruct (to_gdf (crs_code (self st)) df) as [gdf|e]; [|done].
  destruct (grid_sizer (resolution (self st)) gdf)
    as [[[[[b0 b1] b2] b3] nxy]|e]; [|done].
  cbv zeta. destruct (refused _).
  { simpl. by rewrite cleared_idemp. }
  match goal with |- _ = write_bands ?o ?g ?n ?t ?nd ?c ?s =>
    destruct (keeps_raster_write_bands o g n t nd c s _ (lookup_insert_eq _ _ _))
      as (d' & _ & Hfs & _);
    destruct (write_bands o g n t nd c s) as [r st1] eqn:Hrun
  end.
  simpl in Hfs |- *. rewrite Hfs, !insert_insert_eq, <-Hrun.
  reflexivity.
Qed.

Lemma convert_csv_idempotent_witness :
  @convert_csv Sample.externals "data/survey.CSV" "data/survey.tif"
    (snd (@convert_csv Sample.externals "data/survey.CSV" "data/survey.tif"
                       Sample.start))
  = @convert_csv Sample.externals "data/survey.CSV" "data/survey.tif" Sample.start.
Proof.
  apply (convert_csv_idempotent (H := Sample.externals)). discriminate.
Defined.

(** X9: The array of every band that a returned conversion wrote has as many
    rows as the profile's [width] and rows as long as its [height]:
    [out_shape], which is (rows, columns), is given [nxy], which is
    (width, height). *)
Theorem band_rows_follow_width `{Externals}
    (input_file_name output_file_name : string) (st : State)
    (df : DataFrame) (d : Dataset) (k : nat) (arr : Band) :
  fs st !! input_file_name = Some (CsvFile df) →
  fst (convert_csv input_file_name output_file_name st) = Ok tt →
  fs (snd (convert_csv input_file_name output_file_name st)) !! output_file_name
  = Some (TifFile d) →
  written d !! k = Some arr →
  length arr = Z.to_nat (width (profile d)) ∧
  Forall (λ row, length row = Z.to_nat (height (profile d))) arr.
Proof.
  intros Hfile Hok Hd Hk.
  destruct (convert_csv_band _ _ _ _ _ _ _ Hfile Hok Hd Hk) as [shapes Harr].
  apply rasterize_shape in Harr.
  split.
  - by rewrite <-(length_map length), Harr, length_replicate.
  - apply Forall_forall. intros row Hrow.
    assert (Hin : length row ∈ map length arr).
    { apply list_elem_of_fmap. by exists row. }
    rewrite Harr in Hin. by apply elem_of_replicate in Hin as [-> _].
Qed.

Lemma band_rows_follow_width_witness :
  length [[-9999.0; -9999.0; -9999.0; -9999.0]; [-9999.0; -9999.0; -9999.0; -9999.0];
          [-9999.0; -9999.0; 30.0; -9999.0]; [-9999.0; -9999.0; -9999.0; -9999.0];
          [10.0; -9999.0; -9999.0; -9999.0]; [-9999.0; -9999.0; -9999.0; -9999.0]]%float
  = Z.to_nat 6 ∧
  Forall (λ row, length row = Z.to_nat 4)
         [[-9999.0; -9999.0; -9999.0; -9999.0]; [-9999.0; -9999.0; -9999.0; -9999.0];
          [-9999.0; -9999.0; 30.0; -9999.0]; [-9999.0; -9999.0; -9999.0; -9999.0];
          [10.0; -9999.0; -9999.0; -9999.0]; [-9999.0; -9999.0; -9999.0; -9999.0]]%float.
Proof.
  eapply (band_rows_follow_width (H := Sample.externals)
            "data/survey.CSV" "data/survey.tif" Sample.start Sample.survey
            {| profile := {| driver := "GTiff"; width := 6; height := 4;
                             count := 2; dtype := "float32"; crs := "EPSG:4326";
                             transform := from_bounds 139.0 35.0 139.06 35.04 6 4;
                             nodata := (-9999.0)%float |};
               written := _ |} 1).
  - vm_compute. reflexivity.
  - vm_compute. reflexivity.
  - vm_compute. reflexivity.
  - vm_compute. reflexivity.
Defined.

(** ** A grid with no degrees per cell *)

Lemma py_int_over_zero (x u : float) :
  (u =? 0)%float = true →
  py_int (x / u) = Raise (ValueError (Literal "cannot convert float NaN to integer")) ∨
  py_int (x / u)
  = Raise (OverflowError (Literal "cannot convert float infinity to integer")).
Proof.
  rewrite FloatAxioms.eqb_spec. unfold py_int. rewrite div_spec.
  change (Prim2SF 0) with (S754_zero false).
  destruct (Prim2SF u) as [s|s| |s m e]; try done.
  - intros _. destruct (Prim2SF x); simpl; auto.
  - by destruct s.
  - by destruct s.
Qed.

(** X12: When going one resolution east does not change the longitude, as with
    a resolution of zero, the grid sizer never returns: [int] is given a
    NaN (no extent) or an infinity and raises. *)
Theorem grid_sizer_zero_delta_raises `{Externals} (resolution : float)
    (gdf : GeoDataFrame) (first : Point.t) (others : list Point.t) :
  geometry gdf = first :: others →
  (snd (inverse_haversine (Point.y first, Point.x first) resolution EAST METERS)
   - Point.x first =? 0)%float = true →
  grid_sizer resolution gdf
  = Raise (ValueError (Literal "cannot convert float NaN to integer")) ∨
  grid_sizer resolution gdf
  = Raise (OverflowError (Literal "cannot convert float infinity to integer")).
Proof.
  intros Hgeom Hzero. unfold grid_sizer, geometry0. rewrite Hgeom.
  destruct (total_bounds gdf) as [[[b0 b1] b2] b3]. simpl.
  destruct (py_int_over_zero (b2 - b0) _ Hzero) as [-> | ->]; simpl; auto.
Qed.

Lemma grid_sizer_zero_delta_raises_witness :
  @grid_sizer Sample.externals 0.0%float Sample.cloud
  = Raise (ValueError (Literal "cannot convert float NaN to integer")) ∨
  @grid_sizer Sample.externals 0.0%float Sample.cloud
  = Raise (OverflowError (Literal "cannot convert float infinity to integer")).
Proof.
  apply (grid_sizer_zero_delta_raises (H := Sample.externals) 0.0%float
           Sample.cloud (Point.make 139.0 35.0) [Point.make 139.5 35.25]).
  - reflexivity.
  - vm_compute. reflexivity.
Defined.

(** ** The batch *)

Lemma endswith_append c s t :
  t ≠ "" → Str.endswith c (s +:+ t) = Str.endswith c t.
Proof.
  intros Ht. induction s as [|a s IH]; [done|].
  simpl. destruct (s +:+ t) eqn:Hst; [|exact IH].
  destruct s; [done | discriminate].
Qed.

Lemma endswith_join c a b :
  b ≠ "" → Str.endswith c (os_path.join a b) = Str.endswith c b.
Proof.
  intros Hb. unfold os_path.join. repeat case_match; [done| |].
  - by apply endswith_append.
  - rewrite endswith_append; [by apply endswith_append|].
    by destruct b.
Qed.

(** The name of a raster ends in "f". *)
Lemma out_path_ends_in_f input : Str.endswith "f" (out_path input) = true.
Proof.
  unfold out_path. rewrite endswith_join.
  - by rewrite endswith_append.
  - by destruct (fst _).
Qed.

Section Batch.
Context `{Externals}.

Lemma keeps_files_execute_one input :
  keeps_files (λ q, q ≠ out_path input) (execute_one input).
Proof.
  intros st q Hq. rewrite execute_one_unfold. cbv zeta.
  repeat case_match; try done.
  by apply keeps_files_convert_csv.
Qed.

Lemma keeps_files_execute_each keep names :
  (∀ a q, a ∈ names → keep q → q ≠ out_path a) →
  keeps_files keep (execute_each names).
Proof.
  induction names as [|a names IH]; intros Hkeep; simpl;
    [by apply keeps_files_pure|].
  apply keeps_files_bind.
  - intros st q Hq. apply keeps_files_execute_one. eapply Hkeep; [by left|done].
  - intros _. apply IH. intros b q Hb. apply Hkeep. by right.
Qed.


(** A run of [convert_csv] that returns has put a raster at the output
    path and left the other files alone. *)
Lemma convert_csv_outcome input output st :
  fst (convert_csv input output st) = Ok tt →
  ∃ d, fs (snd (convert_csv input output st)) = <[output := TifFile d]> (fs st).
Proof.
  intros Hok. destruct (convert_csv_reads _ _ _ Hok) as [df Hfile].
  rewrite (convert_csv_unfold _ _ _ _ Hfile) in Hok |- *.
  destruct (to_gdf _ df) as [gdf|e]; [|done].
  destruct (grid_sizer _ gdf) as [[[[[b0 b1] b2] b3] nxy]|e]; [|done].
  cbv zeta in Hok |- *. destruct (refused _); [done|].
  match goal with |- context [write_bands ?o ?g ?n ?t ?nd ?c ?s] =>
    destruct (keeps_raster_write_bands o g n t nd c s _ (lookup_insert_eq _ _ _))
      as (d' & _ & Hfs & _)
  end.
  exists d'. rewrite Hfs. simpl. by rewrite insert_insert_eq.
Qed.

Lemma execute_one_outcome input st :
  fst (execute_one input st) = Ok tt →
  ∃ d, fs (snd (execute_one input st)) = <[out_path input := TifFile d]> (fs st).
Proof.
  rewrite execute_one_unfold. cbv zeta. repeat case_match; try done.
  apply convert_csv_outcome.
Qed.

Lemma execute_one_returns_raster input st :
  fst (execute_one input st) = Ok tt →
  ∃ d, fs (snd (execute_one input st)) !! out_path input = Some (TifFile d).
Proof.
  intros [d ->]%execute_one_outcome. rewrite lookup_insert_eq. eauto.
Qed.

Lemma execute_one_raster_stays input st q :
  fst (execute_one input st) = Ok tt →
  (∃ d, fs st !! q = Some (TifFile d)) →
  ∃ d, fs (snd (execute_one input st)) !! q = Some (TifFile d).
Proof.
  intros [d ->]%execute_one_outcome Hq.
  destruct (decide (out_path input = q)) as [<-|Hne].
  - rewrite lookup_insert_eq. eauto.
  - by rewrite lookup_insert_ne.
Qed.

Lemma execute_each_raster_stays names st q :
  fst (execute_each names st) = Ok tt →
  (∃ d, fs st !! q = Some (TifFile d)) →
  ∃ d, fs (snd (execute_each names st)) !! q = Some (TifFile d).
Proof.
  revert st. induction names as [|a names IH]; intros st Hok Hq; simpl; [done|].
  simpl in Hok. unfold bind in *.
  pose proof (execute_one_raster_stays a st q) as Hq'.
  destruct (execute_one a st) as [[[]|e] st1]; simpl in *; [|done].
  apply IH; [done|]. by apply Hq'.
Qed.

Lemma execute_each_returns_rasters names st a :
  fst (execute_each names st) = Ok tt → a ∈ names →
  ∃ d, fs (snd (execute_each names st)) !! out_path a = Some (TifFile d).
Proof.
  revert st. induction names as [|b names IH]; intros st Hok Ha;
    [by apply elem_of_nil in Ha|].
  simpl in *. unfold bind in *.
  pose proof (execute_one_returns_raster b st) as Hb.
  destruct (execute_one b st) as [[[]|e] st1]; simpl in *; [|done].
  apply elem_of_cons in Ha as [->|Ha].
  - apply execute_each_raster_stays; [done|]. by apply Hb.
  - by apply IH.
Qed.

End Batch.


(** X15: A batch leaves alone every file whose name does not end in "f": it
    writes rasters only, and in particular none of the tables it reads. *)
Theorem execute_all_keeps_other_files `{Externals} (st : State) (path : string) :
  Str.endswith "f" path = false →
  fs (snd (execute_all st)) !! path = fs st !! path.
Proof.
  intros Hpath. unfold execute_all, bind, get_self. simpl.
  apply (keeps_files_execute_each (λ q, Str.endswith "f" q = false)); [|done].
  intros a q _ Hq ->. by rewrite out_path_ends_in_f in Hq.
Qed.

(** X16: A batch that returns has left a raster for every input, at the path
    made of the input's directory, its name without extension, and
    ".tif". *)
Theorem execute_all_returns_every_raster `{Externals} (st : State)
    (input_file_name : string) :
  fst (execute_all st) = Ok tt →
  input_file_name ∈ input_file_list (self st) →
  ∃ d, fs (snd (execute_all st)) !! out_path input_file_name = Some (TifFile d).
Proof.
  unfold execute_all, bind, get_self. simpl. apply execute_each_returns_rasters.
Qed.

(** X17: No method changes the instance: after a batch it is what [__init__]
    made it, so [n_inputs] is still the length of [input_file_list]. *)
Theorem execute_all_keeps_instance `{Externals} (input_file_list0 : list string)
    (crs_code0 : Z) (resolution0 : float) (files : gmap string File) :
  let st := {| self := init input_file_list0 crs_code0 resolution0; fs := files |} in
  self (snd (execute_all st)) = init input_file_list0 crs_code0 resolution0 ∧
  n_inputs (self (snd (execute_all st)))
  = length (input_file_list (self (snd (execute_all st)))).
Proof.
  intros st. rewrite keeps_self_execute_all. done.
Qed.


Lemma execute_all_keeps_other_files_witness :
  fs (snd (@execute_all Sample.externals Sample.start)) !! "data/one.csv"
  = fs Sample.start !! "data/one.csv".
Proof.
  apply (execute_all_keeps_other_files (H := Sample.externals)). reflexivity.
Defined.

Lemma execute_all_returns_every_raster_witness :
  ∃ d, fs (snd (@execute_all Sample.externals Sample.start)) !! "data/strip.tif"
       = Some (TifFile d).
Proof.
  apply (execute_all_returns_every_raster (H := Sample.externals) Sample.start
           "data/strip.csv").
  - vm_compute. reflexivity.
  - simpl. right. by left.
Defined.

(** ** Where the raster goes *)

Lemma append_nil_l (t : string) : "" +:+ t = t.
Proof. reflexivity. Qed.

Lemma append_cons a (s t : string) : String a s +:+ t = String a (s +:+ t).
Proof. reflexivity. Qed.

Lemma rfind_lower_bound c s : (-1 <= Str.rfind c s)%Z.
Proof.
  induction s as [|a s IH]; cbn [Str.rfind]; [lia|].
  destruct (Z.leb_spec 0 (Str.rfind c s)); [lia|]. case_match; lia.
Qed.

Lemma rfind_append c s t :
  Str.rfind c (s +:+ t) =
  if (0 <=? Str.rfind c t)%Z
  then (Z.of_nat (String.length s) + Str.rfind c t)%Z
  else Str.rfind c s.
Proof.
  induction s as [|a s IH].
  - pose proof (rfind_lower_bound c t).
    rewrite append_nil_l. destruct (Z.leb_spec 0 (Str.rfind c t)); simpl; lia.
  - rewrite append_cons. cbn [Str.rfind String.length]. rewrite IH.
    destruct (0 <=? Str.rfind c t)%Z eqn:Ht; [|done].
    apply Z.leb_le in Ht.
    assert ((0 <=? Z.of_nat (String.length s) + Str.rfind c t)%Z = true) as ->
      by (apply Z.leb_le; lia).
    lia.
Qed.

Lemma substring_prefix s t : substring 0 (String.length s) (s +:+ t) = s.
Proof.
  induction s as [|a s IH]; rewrite ?append_nil_l, ?append_cons; simpl;
    [by destruct t | by rewrite IH].
Qed.

Lemma substring_whole s : substring 0 (String.length s) s = s.
Proof. induction s as [|a s IH]; simpl; [done | by rewrite IH]. Qed.

Lemma take_append s t : Str.take (Z.of_nat (String.length s)) (s +:+ t) = s.
Proof. unfold Str.take. rewrite Nat2Z.id. apply substring_prefix. Qed.

Lemma drop_append s t : Str.drop (Z.of_nat (String.length s)) (s +:+ t) = t.
Proof.
  unfold Str.drop. rewrite Nat2Z.id.
  induction s as [|a s IH]; rewrite ?append_nil_l, ?append_cons; simpl.
  - rewrite Nat.sub_0_r. apply substring_whole.
  - exact IH.
Qed.

Lemma append_assoc (s t u : string) : (s +:+ t) +:+ u = s +:+ t +:+ u.
Proof.
  induction s as [|a s IH]; rewrite ?append_nil_l, ?append_cons; [done | by rewrite IH].
Qed.

Lemma length_append (s t : string) :
  String.length (s +:+ t) = String.length s + String.length t.
Proof.
  induction s as [|a s IH]; rewrite ?append_nil_l, ?append_cons; simpl;
    [done | by rewrite IH].
Qed.

Lemma rstrip_separator c s :
  s ≠ "" → Str.endswith c s = false →
  Str.all_char c (s +:+ String c "") = false ∧
  Str.rstrip c (s +:+ String c "") = s.
Proof.
  induction s as [|a s IH]; [done|]. intros _ Hend.
  destruct s as [|b s].
  - rewrite append_cons, append_nil_l. simpl in *.
    rewrite Hend, Ascii.eqb_refl. simpl. done.
  - destruct IH as [Hall Hstrip]; [done | exact Hend |].
    rewrite (append_cons a). cbn [Str.all_char Str.rstrip].
    rewrite Hall, andb_false_r. by rewrite Hstrip.
Qed.

(** A name made of a body that has no slash and is not made of dots only,
    and of an extension that is a dot followed by neither dot nor slash, in
    a directory written without a final slash: the raster goes to the same
    directory, under the body with ".tif". *)
Lemma out_path_beside dir body e :
  Str.rfind "/" body = (-1)%Z → Str.all_char "." body = false →
  Str.rfind "." e = (-1)%Z → Str.rfind "/" e = (-1)%Z →
  os_path.splitext (body +:+ String "." e) = (body, String "." e) ∧
  os_path.basename (body +:+ String "." e) = body +:+ String "." e ∧
  out_path (body +:+ String "." e) = body +:+ ".tif" ∧
  (dir ≠ "" → Str.endswith "/" dir = false →
   os_path.basename (dir +:+ "/" +:+ body +:+ String "." e) = body +:+ String "." e ∧
   out_path (dir +:+ "/" +:+ body +:+ String "." e) = dir +:+ "/" +:+ body +:+ ".tif").
Proof.
  intros Hbody Hdots Hdot Hsep.
  set (ext := String "." e). set (name := body +:+ ext).
  assert (Hext_dot : Str.rfind "." ext = 0%Z) by (subst ext; simpl; by rewrite Hdot).
  assert (Hext_sep : Str.rfind "/" ext = (-1)%Z) by (subst ext; simpl; by rewrite Hsep).
  assert (Hname_sep : Str.rfind "/" name = (-1)%Z).
  { subst name. by rewrite rfind_append, Hext_sep. }
  assert (Hname_dot : Str.rfind "." name = Z.of_nat (String.length body)).
  { subst name. rewrite rfind_append, Hext_dot. simpl. lia. }
  assert (Hdrop0 : Str.drop 0 name = name).
  { unfold Str.drop. simpl. rewrite Nat.sub_0_r. apply substring_whole. }
  assert (Hsplit : os_path.splitext name = (body, ext)).
  { unfold os_path.splitext. rewrite Hname_sep, Hname_dot.
    change (-1 + 1)%Z with 0%Z. rewrite Z.sub_0_r, Hdrop0.
    subst name. rewrite take_append, drop_append, Hdots.
    assert ((-1 <? Z.of_nat (String.length body))%Z = true) as ->
      by (apply Z.ltb_lt; lia).
    done. }
  assert (Hstart : Str.startswith "/" (body +:+ ".tif") = false).
  { destruct body as [|a body]; [done|]. simpl in *.
    destruct (0 <=? Str.rfind "/" body)%Z eqn:Hr; [apply Z.leb_le in Hr; lia|].
    by destruct (Ascii.eqb a "/"). }
  split; [exact Hsplit|]. split.
  { unfold os_path.basename. rewrite Hname_sep. exact Hdrop0. }
  split.
  - unfold out_path, os_path.basename, os_path.dirname.
    rewrite Hname_sep. change (-1 + 1)%Z with 0%Z. rewrite Hdrop0, Hsplit.
    simpl fst. unfold Str.take. change (Z.to_nat 0) with 0.
    assert (substring 0 0 name = "") as -> by (by destruct name).
    simpl. unfold os_path.join. by rewrite Hstart.
  - intros Hdir Hend.
    assert (Hp : dir +:+ "/" +:+ name = (dir +:+ "/") +:+ name)
      by by rewrite append_assoc.
    assert (Hp_sep : (Str.rfind "/" (dir +:+ "/" +:+ name) + 1)%Z
                     = Z.of_nat (String.length (dir +:+ "/"))).
    { rewrite rfind_append. change ("/" +:+ name) with (String "/" name).
      cbn [Str.rfind]. rewrite Hname_sep. simpl.
      rewrite length_append. simpl. lia. }
    assert (Hbase : os_path.basename (dir +:+ "/" +:+ name) = name).
    { unfold os_path.basename. rewrite Hp_sep, Hp. apply drop_append. }
    split; [exact Hbase|].
    unfold out_path. rewrite Hbase, Hsplit. simpl fst.
    unfold os_path.dirname. rewrite Hp_sep, Hp, take_append.
    destruct (rstrip_separator "/" dir Hdir Hend) as [Hall Hstrip].
    rewrite Hall, Hstrip.
    assert ((dir +:+ "/" =? "") = false) as -> by (by destruct dir).
    simpl. unfold os_path.join. rewrite Hstart, Hend.
    assert ((dir =? "") = false) as -> by (by destruct dir).
    done.
Qed.

Lemma eqb_of_lower c d :
  Str.lower_ascii c ≠ Str.lower_ascii d → Ascii.eqb c d = false.
Proof. intros Hne. apply Ascii.eqb_neq. by intros ->. Qed.

Lemma lower_ascii_dot c : Str.lower_ascii c = "."%char → c = "."%char.
Proof.
  destruct c as [[] [] [] [] [] [] [] []]; vm_compute; intros Hc;
    first [reflexivity | discriminate Hc].
Qed.

(** An extension that is ".csv" once put to lower case is a dot followed
    by three letters. *)
Lemma csv_extension ext :
  Str.lower ext = ".csv" →
  ∃ e, ext = String "." e ∧ Str.rfind "." e = (-1)%Z ∧ Str.rfind "/" e = (-1)%Z.
Proof.
  destruct ext as [|c0 [|c1 [|c2 [|c3 [|c4 ext]]]]]; simpl; try done.
  intros [= H0 H1 H2 H3]. apply lower_ascii_dot in H0 as ->.
  eexists. split; [reflexivity|].
  assert (Hno : ∀ d : ascii, Str.lower_ascii d = d →
            d ≠ "c"%char → d ≠ "s"%char → d ≠ "v"%char →
            Str.rfind d (String c1 (String c2 (String c3 ""))) = (-1)%Z).
  { intros d Hd Hc Hs Hv. simpl.
    rewrite !eqb_of_lower; [done|rewrite Hd; congruence..]. }
  split; by apply Hno.
Qed.

(** X13: [execute_one] of a table at [dir/body.ext], where the extension is
    ".csv" in any mix of cases, converts it to [dir/body.tif]; a table
    named [body.ext] without a directory goes to [body.tif].  The body may
    hold dots but is not made of dots only, and [dir] is written without a
    final slash. *)
Theorem execute_one_output_beside_input `{Externals} (dir body ext : string)
    (st : State) :
  Str.rfind "/" body = (-1)%Z → Str.all_char "." body = false →
  Str.lower ext = ".csv" →
  (is_Some (fs st !! (body +:+ ext)) →
   execute_one (body +:+ ext) st
   = convert_csv (body +:+ ext) (body +:+ ".tif") st) ∧
  (dir ≠ "" → Str.endswith "/" dir = false →
   is_Some (fs st !! (dir +:+ "/" +:+ body +:+ ext)) →
   execute_one (dir +:+ "/" +:+ body +:+ ext) st
   = convert_csv (dir +:+ "/" +:+ body +:+ ext) (dir +:+ "/" +:+ body +:+ ".tif") st).
Proof.
  intros Hbody Hdots Hlower.
  destruct (csv_extension _ Hlower) as (e & -> & Hdot & Hsep).
  destruct (out_path_beside dir body e Hbody Hdots Hdot Hsep)
    as (Hsplit & Hbase & Hout & Hdir).
  split.
  - intros Hfile. rewrite execute_one_unfold. cbv zeta.
    rewrite Hbase, Hsplit, bool_decide_true by done.
    cbn [fst snd negb]. rewrite Hlower. cbn [String.eqb negb].
    unfold out_path in Hout. rewrite Hbase, Hsplit in Hout. cbn [fst] in Hout.
    by rewrite Hout.
  - intros Hne Hend Hfile. destruct (Hdir Hne Hend) as [Hbase' Hout'].
    rewrite execute_one_unfold. cbv zeta.
    rewrite Hbase', Hsplit, bool_decide_true by done.
    cbn [fst snd negb]. rewrite Hlower. cbn [String.eqb negb].
    unfold out_path in Hout'. rewrite Hbase', Hsplit in Hout'. cbn [fst] in Hout'.
    by rewrite Hout'.
Qed.

Lemma execute_one_output_beside_input_witness :
  (is_Some (fs Sample.start !! "survey.CSV") →
   @execute_one Sample.externals "survey.CSV" Sample.start
   = @convert_csv Sample.externals "survey.CSV" "survey.tif" Sample.start) ∧
  ("data" ≠ "" → Str.endswith "/" "data" = false →
   is_Some (fs Sample.start !! "data/survey.CSV") →
   @execute_one Sample.externals "data/survey.CSV" Sample.start
   = @convert_csv Sample.externals "data/survey.CSV" "data/survey.tif" Sample.start).
Proof.
  apply (execute_one_output_beside_input (H := Sample.externals)
           "data" "survey" ".CSV" Sample.start); reflexivity.
Defined.

(** ** What the array of a band holds *)

Section Samples.
Context `{Externals}.

Lemma cell_fold_burn_cases t shapes out r c v :
  cell (fold_left (burn t) shapes out) r c = Some v →
  cell out r c = Some v ∨
  ∃ j p x, shapes !! j = Some (p, x) ∧ cell_of t p = Some (r, c) ∧ v = x.
Proof.
  induction shapes as [|[p x] shapes IH] using rev_ind; [by left|].
  rewrite fold_left_app. cbn [fold_left]. intros Hv.
  destruct (decide (cell_of t p = Some (r, c))) as [Hhit|Hmiss].
  - right. exists (length shapes), p, x.
    split; [by rewrite lookup_app_r, Nat.sub_diag|]. split; [done|].
    assert (Hin : is_Some (cell (fold_left (burn t) shapes out) r c)).
    { apply (cell_burn_is_Some t _ (p, x)). eauto. }
    rewrite (cell_burn_hit _ _ _ _ _ _ Hhit Hin) in Hv. congruence.
  - rewrite cell_burn_miss in Hv by done.
    destruct (IH Hv) as [?|(j & q & y & Hj & ? & ?)]; [by left|].
    right. exists j, q, y. split; [|done]. by apply lookup_app_l_Some.
Qed.

Lemma cell_full shape fill r c v : cell (full shape fill) r c = Some v → v = fill.
Proof.
  unfold cell, full. intros Hv.
  destruct (replicate _ _ !! r) as [row|] eqn:Hrow; [|done]. simpl in Hv.
  apply lookup_replicate in Hrow as [-> _].
  by apply lookup_replicate in Hv as [-> _].
Qed.

End Samples.

(** X10: Nothing is interpolated in the array that is handed to [write] for
    an attribute column: a cell of it holds either the nodata value -9999.0
    or the value, as it is, that the column has in a row whose point falls
    at the row and column of that cell. *)
Theorem written_cells_are_nodata_or_values `{Externals}
    (input_file_name output_file_name : string) (st : State)
    (df : DataFrame) (gdf : GeoDataFrame) (d : Dataset)
    (a : nat) (name : string) (zs : list float) (arr : Band)
    (r c : nat) (v : float) :
  fs st !! input_file_name = Some (CsvFile df) →
  wf_frame df →
  fst (convert_csv input_file_name output_file_name st) = Ok tt →
  to_gdf (crs_code (self st)) df = Ok gdf →
  fs (snd (convert_csv input_file_name output_file_name st)) !! output_file_name
  = Some (TifFile d) →
  frame gdf !! a = Some (name, zs) →
  written d !! (a + 1) = Some arr →
  cell arr r c = Some v →
  v = (-9999.0)%float ∨
  ∃ j p z, geometry gdf !! j = Some p ∧ zs !! j = Some z ∧
           cell_of (transform (profile d)) p = Some (r, c) ∧ v = z.
Proof.
  intros Hfile Hwf Hok Hgdf Hd Ha Harr Hv.
  destruct (convert_csv_returns _ _ _ _ Hfile Hok)
    as (gdf' & b0 & b1 & b2 & b3 & w & h & d' & Hgdf' & _ & Hd' & Hprofile & Hbands & _).
  rewrite Hgdf in Hgdf'. injection Hgdf' as <-.
  rewrite Hd in Hd'. injection Hd' as <-.
  rewrite Hprofile. simpl.
  destruct (to_gdf_count _ _ _ Hwf Hgdf) as [Hwf' _].
  assert (Hc : columns (frame gdf) !! a = Some name) by by rewrite lookup_columns, Ha.
  destruct (Hbands _ _ Hc) as (zs' & arr' & Hzs & Hras & Hb).
  rewrite (getitem_lookup _ _ _ _ Hwf' Ha) in Hzs. injection Hzs as <-.
  rewrite Harr in Hb. injection Hb as <-.
  unfold rasterize in Hras. case_match; [done|]. injection Hras as <-.
  apply cell_fold_burn_cases in Hv as [Hfill|(j & p & z & Hj & Hcell & ->)].
  - left. by apply cell_full in Hfill as ->.
  - right. apply lookup_zip_with_Some in Hj as (p' & z' & [= <- <-] & Hp & Hz).
    exists j, p, z. done.
Qed.

Lemma written_cells_are_nodata_or_values_witness :
  30.0%float = (-9999.0)%float ∨
  ∃ j p z,
    [Point.make 139.0 35.0; Point.make 139.025 35.015;
     Point.make 139.02501 35.015; Point.make 139.06 35.04] !! j = Some p ∧
    [10.0; 20.0; 30.0; 40.0]%float !! j = Some z ∧
    Sample.grid_cell_of (from_bounds 139.0 35.0 139.06 35.04 6 4) p = Some (2, 2) ∧
    30.0%float = z.
Proof.
  eapply (written_cells_are_nodata_or_values (H := Sample.externals)
            "data/survey.CSV" "data/survey.tif" Sample.start Sample.survey
            {| frame := _; gdf_crs := _;
               geometry := [Point.make 139.0 35.0; Point.make 139.025 35.015;
                            Point.make 139.02501 35.015; Point.make 139.06 35.04] |}
            {| profile := {| driver := "GTiff"; width := 6; height := 4;
                             count := 2; dtype := "float32"; crs := "EPSG:4326";
                             transform := from_bounds 139.0 35.0 139.06 35.04 6 4;
                             nodata := (-9999.0)%float |};
               written := _ |}
            0 "val" [10.0; 20.0; 30.0; 40.0]%float _ 2 2 30.0%float).
  - vm_compute. reflexivity.
  - apply (bool_decide_unpack _). vm_compute. exact I.
  - vm_compute. reflexivity.
  - vm_compute. reflexivity.
  - vm_compute. reflexivity.
  - reflexivity.
  - vm_compute. reflexivity.
  - vm_compute. reflexivity.
Defined.

(** ** The points of a table *)

(** X11: The points are read from the columns at the two indexes that the
    resolver returns, the longitude as x and the latitude as y: one point
    for each row that has both, in row order. *)
Theorem to_gdf_points (crs : Z) (df : DataFrame) (gdf : GeoDataFrame)
    (names : latlng_names) (xs ys : list float) :
  wf_frame df →
  get_latlon_names (columns df) = Ok names →
  df !! fst (lng names) = Some (snd (lng names), xs) →
  df !! fst (lat names) = Some (snd (lat names), ys) →
  to_gdf crs df = Ok gdf →
  length (geometry gdf) = min (length xs) (length ys) ∧
  ∀ i x y, xs !! i = Some x → ys !! i = Some y →
           geometry gdf !! i = Some (Point.make x y).
Proof.
  intros Hwf Hnames Hxs Hys (names' & xs' & ys' & Hnames' & Hxs' & Hys' & ->)%to_gdf_inv.
  rewrite Hnames in Hnames'. injection Hnames' as <-.
  rewrite (getitem_lookup _ _ _ _ Hwf Hxs) in Hxs'. injection Hxs' as <-.
  rewrite (getitem_lookup _ _ _ _ Hwf Hys) in Hys'. injection Hys' as <-.
  simpl. split.
  - by rewrite length_map, length_zip_with.
  - intros i x y Hx Hy. change (map Point (zip xs ys)) with (Point <$> zip xs ys).
    rewrite list_lookup_fmap, lookup_zip_with, Hx. simpl. by rewrite Hy.
Qed.

Lemma to_gdf_points_witness :
  length [Point.make 139.0 35.0; Point.make 139.0005 35.0005] = min 2 2 ∧
  ∀ i x y, [139.0; 139.0005]%float !! i = Some x →
           [35.0; 35.0005]%float !! i = Some y →
           [Point.make 139.0 35.0; Point.make 139.0005 35.0005] !! i
           = Some (Point.make x y).
Proof.
  apply (to_gdf_points 4326 Sample.two_near
           {| frame := [("id", [1.0; 2.0]%float)]; gdf_crs := 4326;
              geometry := [Point.make 139.0 35.0; Point.make 139.0005 35.0005] |}
           {| lat := (1, "LAT"); lng := (2, "LNG") |}
           [139.0; 139.0005]%float [35.0; 35.0005]%float).
  - apply (bool_decide_unpack _). vm_compute. exact I.
  - reflexivity.
  - reflexivity.
  - reflexivity.
  - reflexivity.
Defined.
